(** * Canonical_ES: the continuous-time recurrent controller

    A shallow embedding of [brains/continuous_time_rnn.py] and the properties
    of its specification.  The numpy and scipy primitives the module calls
    ([np.count_nonzero], [np.clip], [np.zeros], array addition with
    broadcasting, slice assignment, [sparse.csr_matrix], [csr_matrix.dot],
    [np.savez], [np.load]) are modelled next to the code that uses them. *)

From Corelib Require PrimFloat.
From Stdlib Require Import String ZArith Lia Bool Arith List.
From Stdlib.Strings Require Import Byte.
Import ListNotations.

Set Implicit Arguments.

(** ** Exceptions and results *)

(** The exceptions the module and the libraries under it can raise. *)
Inductive exn : Type :=
| AssertionError
| RuntimeError (msg : string)
| KeyError (key : string)
| FileNotFoundError (path : string)
| ValueError_dimension_mismatch
| ValueError_operands (a b : nat)
| ValueError_broadcast (src dst : nat)
| ValueError_negative_dimensions
| ValueError_bad_npy.

Inductive result (A : Type) : Type :=
| Ok (a : A)
| Raise (e : exn).

Arguments Ok {A} a.
Arguments Raise {A} e.

Definition bind {A B : Type} (r : result A) (k : A -> result B) : result B :=
  match r with
  | Ok a => k a
  | Raise e => Raise e
  end.

Declare Scope py_scope.
Delimit Scope py_scope with py.
Notation "x <- e ;; k" := (bind e (fun x => k))
  (at level 61, e at next level, right associativity) : py_scope.
Notation "' p <- e ;; k" := (bind e (fun x => match x with p => k end))
  (at level 61, p pattern, e at next level, right associativity) : py_scope.
Open Scope py_scope.

Definition is_ok {A : Type} (r : result A) : bool :=
  match r with Ok _ => true | Raise _ => false end.

(** ** Scalars

    The floating-point numbers of the program are kept abstract: a carrier
    with the constants and operations the module uses.  [ltb] is the strict
    comparison [<], [tanh] is [np.tanh] on one element, [isnan] tells the
    values that are not a number. *)
Class Scalar (F : Type) : Type := {
  zero : F;
  one : F;
  opp : F -> F;
  add : F -> F -> F;
  mul : F -> F -> F;
  ltb : F -> F -> bool;
  tanh : F -> F;
  isnan : F -> bool
}.

(** Integers, with the sign as a squashing function: the instance on which
    the model is run on examples. *)
#[export] Instance Z_scalar : Scalar Z := {
  zero := 0%Z;
  one := 1%Z;
  opp := Z.opp;
  add := Z.add;
  mul := Z.mul;
  ltb := Z.ltb;
  tanh := Z.sgn;
  isnan := fun _ => false
}.

(** ** Python dictionaries with string keys *)

(** A dict keeps its insertion order, which [values()] iterates in. *)
Definition dict (V : Type) : Type := list (string * V).

Fixpoint dict_lookup {V : Type} (k : string) (d : dict V) : option V :=
  match d with
  | [] => None
  | (k', v) :: d' => if String.eqb k k' then Some v else dict_lookup k d'
  end.

(** [d[k]] *)
Definition dict_getitem {V : Type} (d : dict V) (k : string) : result V :=
  match dict_lookup k d with
  | Some v => Ok v
  | None => Raise (KeyError k)
  end.

(** [d[k] = v] on a dict: replaces in place or appends. *)
Fixpoint dict_setitem {V : Type} (k : string) (v : V) (d : dict V) : dict V :=
  match d with
  | [] => [(k, v)]
  | (k', v') :: d' =>
      if String.eqb k k' then (k, v) :: d' else (k', v') :: dict_setitem k v d'
  end.

Definition dict_values {V : Type} (d : dict V) : list V := map snd d.

(** ** Boolean matrices (masks) *)

(** A rank-2 boolean array of shape [(length rows, ncols)], rows in order. *)
Record mask : Type := Mask {
  ncols : nat;
  rows : list (list bool)
}.

Definition nrows (m : mask) : nat := length (rows m).

(** Every numpy array is rectangular. *)
Definition wf_mask (m : mask) : Prop :=
  Forall (fun r => length r = ncols m) (rows m).

Definition wf_maskb (m : mask) : bool :=
  forallb (fun r => length r =? ncols m) (rows m).

Fixpoint count_row (r : list bool) : nat :=
  match r with
  | [] => 0
  | b :: r' => (if b then 1 else 0) + count_row r'
  end.

(** [np.count_nonzero] on a boolean matrix. *)
Definition count_nonzero (m : mask) : nat :=
  list_sum (map count_row (rows m)).

(** [mask[i, j]] *)
Definition mask_get (m : mask) (i j : nat) : bool :=
  nth j (nth i (rows m) []) false.

(** ** Brain states *)

Definition brain_state : Type := dict mask.

Definition get_masks_from_brain_state (bs : brain_state)
  : result (mask * mask * mask) :=
  v_mask <- dict_getitem bs "v_mask" ;;
  w_mask <- dict_getitem bs "w_mask" ;;
  t_mask <- dict_getitem bs "t_mask" ;;
  Ok (v_mask, w_mask, t_mask).

Definition get_brain_state_from_masks (v_mask w_mask t_mask : mask)
  : brain_state :=
  [("v_mask"%string, v_mask); ("w_mask"%string, w_mask);
   ("t_mask"%string, t_mask)].

(** ** Parameter accounting *)

Definition get_free_parameter_usage (bs : brain_state) : result (dict nat) :=
  '(v_mask, w_mask, t_mask) <- get_masks_from_brain_state bs ;;
  let free_parameters_v := count_nonzero v_mask in
  let free_parameters_w := count_nonzero w_mask in
  let free_parameters_t := count_nonzero t_mask in
  Ok [("V"%string, free_parameters_v); ("W"%string, free_parameters_w);
      ("T"%string, free_parameters_t)].

Definition get_individual_size (bs : brain_state) : result nat :=
  free_parameter_usage <- get_free_parameter_usage bs ;;
  Ok (fold_left (fun individual_size free_parameters =>
                   individual_size + free_parameters)
                (dict_values free_parameter_usage) 0).

(** ** numpy on rank-1 arrays *)

Section Numpy.
Context {F : Type} `{Scalar F}.

(** [np.zeros(n)] for a Python integer [n]. *)
Definition np_zeros (n : Z) : result (list F) :=
  if (n <? 0)%Z then Raise ValueError_negative_dimensions
  else Ok (repeat zero (Z.to_nat n)).

(** [a + b] on two rank-1 arrays: elementwise on equal lengths, an array of
    length one is broadcast against the other, anything else raises. *)
Definition np_add (a b : list F) : result (list F) :=
  if length a =? length b then Ok (map (fun p => add (fst p) (snd p)) (combine a b))
  else if length a =? 1 then Ok (map (fun y => add (hd zero a) y) b)
  else if length b =? 1 then Ok (map (fun y => add y (hd zero b)) a)
  else Raise (ValueError_operands (length a) (length b)).

(** [s * a] for a Python float [s] and an array [a]. *)
Definition np_scale (s : F) (a : list F) : list F := map (mul s) a.

Definition np_tanh (a : list F) : list F := map tanh a.

(** The element loop of [np.clip]: [min(max(v, lo), hi)], where
    [max(a, b)] is [a] when [a] is not a number, else [a if a > b else b],
    and [min(a, b)] is [a] when [a] is not a number, else
    [a if a < b else b].  A component that is not a number stays as it is.
    No check is made that [lo <= hi]. *)
Definition clip1 (lo hi v : F) : F :=
  let m := if isnan v then v else if ltb lo v then v else lo in
  if isnan m then m else if ltb m hi then m else hi.

Definition np_clip (a : list F) (a_min a_max : F) : list F :=
  map (clip1 a_min a_max) a.

(** [l[a:b]] for [0 <= a <= b]: the bounds are clamped to the length. *)
Definition py_slice {A : Type} (l : list A) (a b : nat) : list A :=
  firstn (b - a) (skipn a l).

(** [dst[:] = src] for a rank-1 array [dst] and a list [src]: a copy when the
    lengths agree, a broadcast of the single element of [src], else a
    [ValueError].  The result is the new content of [dst]. *)
Definition np_setitem_all (dst src : list F) : result (list F) :=
  if length src =? length dst then Ok src
  else if length src =? 1 then Ok (repeat (hd zero src) (length dst))
  else Raise (ValueError_broadcast (length src) (length dst)).

(** ** scipy.sparse.csr_matrix *)

Record csr : Type := Csr {
  shape : nat * nat;
  indptr : list nat;
  indices : list nat;
  data : list F
}.

Definition with_data (A : csr) (d : list F) : csr :=
  {| shape := shape A; indptr := indptr A; indices := indices A; data := d |}.

(** Column numbers of the true entries of a row, from column [j] on. *)
Fixpoint nonzero_cols (j : nat) (r : list bool) : list nat :=
  match r with
  | [] => []
  | b :: r' =>
      if b then j :: nonzero_cols (S j) r' else nonzero_cols (S j) r'
  end.

(** Row pointers: the running count of stored entries, from [o] on. *)
Fixpoint indptr_from (o : nat) (rs : list (list bool)) : list nat :=
  match rs with
  | [] => [o]
  | r :: rs' => o :: indptr_from (o + count_row r) rs'
  end.

(** [sparse.csr_matrix(mask, dtype=float)]: one stored entry, of value 1.0,
    for every true entry of the mask, rows in order and columns ascending
    within a row. *)
Definition csr_matrix (m : mask) : csr :=
  {| shape := (nrows m, ncols m);
     indptr := indptr_from 0 (rows m);
     indices := flat_map (nonzero_cols 0) (rows m);
     data := repeat one (count_nonzero m) |}.

(** The loop of [csr_matvec]: row [i] accumulates
    [data[jj] * v[indices[jj]]] for [jj] from [indptr[i]] to [indptr[i+1]]. *)
Definition csr_row_dot (A : csr) (v : list F) (i : nat) : F :=
  fold_left
    (fun sum jj => add sum (mul (nth jj (data A) zero)
                                (nth (nth jj (indices A) 0) v zero)))
    (seq (nth i (indptr A) 0) (nth (S i) (indptr A) 0 - nth i (indptr A) 0))
    zero.

Definition csr_matvec (A : csr) (v : list F) : list F :=
  map (csr_row_dot A v) (seq 0 (fst (shape A))).

(** [A.dot(v)] for a rank-1 array [v]: its length must be the column count. *)
Definition csr_dot (A : csr) (v : list F) : result (list F) :=
  if length v =? snd (shape A) then Ok (csr_matvec A v)
  else Raise ValueError_dimension_mismatch.

(** The stored entries in storage order, as (row, column, value): what
    [A.tocoo()] lists. *)
Definition csr_entries (A : csr) : list (nat * nat * F) :=
  flat_map
    (fun i => map (fun jj => (i, nth jj (indices A) 0, nth jj (data A) zero))
                  (seq (nth i (indptr A) 0)
                       (nth (S i) (indptr A) 0 - nth i (indptr A) 0)))
    (seq 0 (fst (shape A))).

(** ** Configuration *)

(** The configuration dictionary: the three required entries and the
    optional ones. *)
Record configuration : Type := Configuration {
  cfg_type : string;
  cfg_delta_t : F;
  cfg_number_neurons : Z;
  cfg_v_mask : option string;
  cfg_v_mask_density : option F;
  cfg_w_mask : option string;
  cfg_w_mask_density : option F;
  cfg_t_mask : option string;
  cfg_t_mask_density : option F;
  cfg_clipping_range_min : option F;
  cfg_clipping_range_max : option F
}.

Record ContinuousTimeRNNCfg : Type := Cfg {
  type : string;
  delta_t : F;
  number_neurons : Z;
  v_mask : string;
  v_mask_density : F;
  w_mask : string;
  w_mask_density : F;
  t_mask : string;
  t_mask_density : F;
  clipping_range_min : F;
  clipping_range_max : F
}.

Definition default {A : Type} (o : option A) (d : A) : A :=
  match o with Some a => a | None => d end.

(** The initialiser that attrs generates, called with the entries of the
    dictionary as keyword arguments: it stores them and fills in the
    defaults; it validates nothing. *)
Definition ContinuousTimeRNNCfg_init (c : configuration) : ContinuousTimeRNNCfg :=
  {| type := cfg_type c;
     delta_t := cfg_delta_t c;
     number_neurons := cfg_number_neurons c;
     v_mask := default (cfg_v_mask c) "dense"%string;
     v_mask_density := default (cfg_v_mask_density c) one;
     w_mask := default (cfg_w_mask c) "dense"%string;
     w_mask_density := default (cfg_w_mask_density c) one;
     t_mask := default (cfg_t_mask c) "dense"%string;
     t_mask_density := default (cfg_t_mask_density c) one;
     clipping_range_min := default (cfg_clipping_range_min c) one;
     clipping_range_max := default (cfg_clipping_range_max c) (opp one) |}.

(** ** The controller *)

Record ContinuousTimeRNN : Type := Brain {
  config : ContinuousTimeRNNCfg;
  V : csr;
  W : csr;
  T : csr;
  x : list F
}.

Definition with_x (self : ContinuousTimeRNN) (v : list F) : ContinuousTimeRNN :=
  {| config := config self; V := V self; W := W self; T := T self; x := v |}.

Definition __init__ (individual : list F) (configuration : configuration)
  (brain_state : brain_state) : result ContinuousTimeRNN :=
  let config := ContinuousTimeRNNCfg_init configuration in
  '(v_mask, w_mask, t_mask) <- get_masks_from_brain_state brain_state ;;
  let v_size := count_nonzero v_mask in
  let w_size := count_nonzero w_mask in
  let t_size := count_nonzero t_mask in
  let V := csr_matrix v_mask in
  let W := csr_matrix w_mask in
  let T := csr_matrix t_mask in
  V_data <- np_setitem_all (data V) (py_slice individual 0 v_size) ;;
  W_data <- np_setitem_all (data W) (py_slice individual v_size (v_size + w_size)) ;;
  T_data <- np_setitem_all (data T)
              (py_slice individual (v_size + w_size) (v_size + w_size + t_size)) ;;
  x0 <- np_zeros (number_neurons config) ;;
  Ok {| config := config;
        V := with_data V V_data;
        W := with_data W W_data;
        T := with_data T T_data;
        x := x0 |}.

(** A method of the controller: it may assign fields of [self] and then
    return or raise; the controller it leaves behind is part of the outcome
    in both cases. *)
Definition method (A : Type) : Type :=
  ContinuousTimeRNN -> ContinuousTimeRNN * result A.

Definition mret {A : Type} (a : A) : method A := fun self => (self, Ok a).

Definition mbind {A B : Type} (m : method A) (k : A -> method B) : method B :=
  fun self =>
    match m self with
    | (self', Ok a) => k a self'
    | (self', Raise e) => (self', Raise e)
    end.

Definition lift {A : Type} (r : result A) : method A := fun self => (self, r).

Definition get_self : method ContinuousTimeRNN := fun self => (self, Ok self).

Definition set_x (v : list F) : method unit := fun self => (with_x self v, Ok tt).

Notation "x <<- e ;; k" := (mbind e (fun x => k))
  (at level 61, e at next level, right associativity).

(** Rank-1 arrays are lists here, so the two [assert ... ndim == 1] of the
    source hold by typing. *)
Definition step (u : list F) : method (list F) :=
  self <<- get_self ;;
  Wx <<- lift (csr_dot (W self) (np_tanh (x self))) ;;
  Vu <<- lift (csr_dot (V self) u) ;;
  dx_dt <<- lift (np_add Wx Vu) ;;
  x1 <<- lift (np_add (x self) (np_scale (delta_t (config self)) dx_dt)) ;;
  _ <<- set_x x1 ;;
  self <<- get_self ;;
  _ <<- set_x (np_clip (x self) (clipping_range_min (config self))
                       (clipping_range_max (config self))) ;;
  self <<- get_self ;;
  Tx <<- lift (csr_dot (T self) (x self)) ;;
  let y := np_tanh Tx in
  mret y.

Definition reset : method unit :=
  self <<- get_self ;;
  x0 <<- lift (np_zeros (number_neurons (config self))) ;;
  set_x x0.

End Numpy.

(** ** Mask generation *)

Section MaskGenerator.
Context {F : Type} `{Scalar F}.

(** The process-wide random source of numpy: the uniform draws still to
    come, in the order in which they will be handed out. *)
Definition rng : Type := nat -> F.

(** [np.random.rand(n, m)]: [n * m] draws, laid out row by row. *)
Definition np_random_rand (n m : nat) (g : rng) : rng * list (list F) :=
  (fun k => g (n * m + k),
   map (fun i => map (fun j => g (i * m + j)) (seq 0 m)) (seq 0 n)).

(** [a < d] for a matrix [a] of [m] columns and a float [d]. *)
Definition np_less (m : nat) (a : list (list F)) (d : F) : mask :=
  {| ncols := m; rows := map (map (fun v => ltb v d)) a |}.

(** [np.ones((n, m), dtype=bool)] *)
Definition np_ones (n m : nat) : mask :=
  {| ncols := m; rows := repeat (repeat true m) n |}.

Fixpoint list_set {A : Type} (l : list A) (i : nat) (a : A) : list A :=
  match l, i with
  | [], _ => []
  | _ :: l', 0 => a :: l'
  | b :: l', S i' => b :: list_set l' i' a
  end.

(** [mask[i, j] = b]; the generator only writes inside the matrix. *)
Definition mask_set (m : mask) (i j : nat) (b : bool) : mask :=
  {| ncols := ncols m;
     rows := list_set (rows m) i (list_set (nth i (rows m) []) j b) |}.

Definition _generate_mask (mask_type : string) (n m : nat) (mask_density : F)
  (keep_main_diagonal : bool) (g : rng) : rng * result mask :=
  let '(g1, r) :=
    if String.eqb mask_type "random" then
      let '(g', a) := np_random_rand n m g in (g', Ok (np_less m a mask_density))
    else if String.eqb mask_type "dense" then
      (g, Ok (np_ones n m))
    else
      (g, Raise (RuntimeError ("Unknown mask_type: " ++ mask_type)))
  in
  match r with
  | Raise e => (g1, Raise e)
  | Ok mask =>
      let r' :=
        if keep_main_diagonal then
          if n =? m then
            Ok (fold_left (fun mask i => mask_set mask i i true) (seq 0 n) mask)
          else Raise AssertionError
        else Ok mask
      in
      match r' with
      | Raise e => (g1, Raise e)
      | Ok _ =>
          let '(g2, a) := np_random_rand n m g1 in
          (g2, Ok (np_less m a mask_density))
      end
  end.

(** A matrix all of whose entries are [b]. *)
Definition constant_mask (b : bool) (n m : nat) : mask :=
  {| ncols := m; rows := repeat (repeat b m) n |}.

End MaskGenerator.

(** ** The state codec *)

(** One array of an archive, as the npy format stores it: the element type,
    the shape and the elements, one byte each, row by row. *)
Record npy : Type := Npy {
  descr : string;
  npy_shape : list nat;
  payload : list byte
}.

(** An [.npz] archive: arrays under their names. *)
Definition npz : Type := dict npy.

(** The files of the archive kind, by path.  A path stands for the file it
    names: two spellings of one file are not told apart here, and a write
    always succeeds. *)
Definition filesystem : Type := dict npz.

Definition byte_of_bool (b : bool) : byte := if b then x01 else x00.

Definition bool_of_byte (c : byte) : bool := negb (Byte.eqb c x00).

Definition npy_of_mask (m : mask) : npy :=
  {| descr := "|b1";
     npy_shape := [nrows m; ncols m];
     payload := map byte_of_bool (concat (rows m)) |}.

(** Cut a list into [n] consecutive rows of [m] elements. *)
Fixpoint chunks {A : Type} (n m : nat) (l : list A) : list (list A) :=
  match n with
  | 0 => []
  | S n' => firstn m l :: chunks n' m (skipn m l)
  end.

Definition mask_of_npy (a : npy) : result mask :=
  match npy_shape a with
  | [n; m] =>
      if String.eqb (descr a) "|b1" && (length (payload a) =? n * m) then
        Ok {| ncols := m; rows := chunks n m (map bool_of_byte (payload a)) |}
      else Raise ValueError_bad_npy
  | _ => Raise ValueError_bad_npy
  end.

Definition endswith (s suffix : string) : bool :=
  let n := String.length s in
  let k := String.length suffix in
  (k <=? n) && String.eqb (substring (n - k) k s) suffix.

(** [np.savez] appends [.npz] to a file name that does not end with it. *)
Definition savez_filename (path : string) : string :=
  if endswith path ".npz" then path else (path ++ ".npz")%string.

(** [np.savez(path, **arrays)] *)
Definition np_savez (path : string) (arrays : dict mask) (fs : filesystem)
  : filesystem :=
  dict_setitem (savez_filename path)
               (map (fun kv => (fst kv, npy_of_mask (snd kv))) arrays) fs.

(** [np.load(path)] *)
Definition np_load (path : string) (fs : filesystem) : result npz :=
  match dict_lookup path fs with
  | Some f => Ok f
  | None => Raise (FileNotFoundError path)
  end.

(** [file_data[key]] *)
Definition npz_getitem (file_data : npz) (key : string) : result mask :=
  match dict_lookup key file_data with
  | Some a => mask_of_npy a
  | None => Raise (KeyError (key ++ " is not a file in the archive"))
  end.

Definition save_brain_state (path : string) (bs : brain_state) (fs : filesystem)
  : result filesystem :=
  '(v_mask, w_mask, t_mask) <- get_masks_from_brain_state bs ;;
  Ok (np_savez path [("v_mask"%string, v_mask); ("w_mask"%string, w_mask);
                     ("t_mask"%string, t_mask)] fs).

Definition load_brain_state (path : string) (fs : filesystem)
  : result brain_state :=
  file_data <- np_load path fs ;;
  v_mask <- npz_getitem file_data "v_mask" ;;
  w_mask <- npz_getitem file_data "w_mask" ;;
  t_mask <- npz_getitem file_data "t_mask" ;;
  Ok (get_brain_state_from_masks v_mask w_mask t_mask).

(** ** The specification's vocabulary *)

Section Specification.
Context {F : Type} `{Scalar F}.

(** The positions of the true entries of a mask in row-major order: rows in
    order, columns ascending within a row. *)
Definition true_positions (m : mask) : list (nat * nat) :=
  filter (fun p => mask_get m (fst p) (snd p))
         (list_prod (seq 0 (nrows m)) (seq 0 (ncols m))).





(** Clipping a value to the range from [lo] to [hi], as the specification
    says it: a value strictly between the bounds is kept, a value that is not
    above the lower bound becomes the lower bound, a value that is not below
    the upper bound becomes the upper bound.  NaN is no value of the range
    and is kept as it is. *)
Definition clamp (lo hi v : F) : F :=
  if isnan v then v
  else if ltb lo v then (if ltb v hi then v else hi)
  else lo.

(** A value that is a number within the range from [lo] to [hi]. *)
Definition within (lo hi v : F) : Prop :=
  isnan v = false /\ ltb v lo = false /\ ltb hi v = false.




(** The hidden state of a controller after the Euler step on the input [u]
    and before the clamp, component by component:
    [x_i + delta_t * ((W . tanh(x))_i + (V . u)_i)]. *)
Definition euler_update (c : ContinuousTimeRNN) (u : list F) : list F :=
  map (fun i =>
         add (nth i (x c) zero)
             (mul (delta_t (config c))
                  (add (nth i (csr_matvec (W c) (np_tanh (x c))) zero)
                       (nth i (csr_matvec (V c) u) zero))))
      (seq 0 (length (x c))).

(** The controllers a program can hold: built by the constructor, then
    stepped and reset any number of times, whether the calls succeed or
    raise. *)
Inductive reachable : ContinuousTimeRNN -> Prop :=
| reachable_init individual configuration brain_state self :
    __init__ individual configuration brain_state = Ok self ->
    reachable self
| reachable_step self u :
    reachable self -> reachable (fst (step u self))
| reachable_reset self :
    reachable self -> reachable (fst (reset self)).

(** The values of a group cut into one segment per mask row. *)
Fixpoint split_rows (rs : list (list bool)) (vals : list F) : list (list F) :=
  match rs with
  | [] => []
  | r :: rs' =>
      firstn (count_row r) vals :: split_rows rs' (skipn (count_row r) vals)
  end.

(** The true positions of the rows [rs], numbered from row [i] on. *)
Fixpoint row_positions (i : nat) (rs : list (list bool)) : list (nat * nat) :=
  match rs with
  | [] => []
  | r :: rs' => map (pair i) (nonzero_cols 0 r) ++ row_positions (S i) rs'
  end.

(** The entries that the three arrays of a sparse matrix store for row [i]:
    column and value. *)
Definition stored_row (ip ind : list nat) (dat : list F) (i : nat)
  : list (nat * F) :=
  map (fun jj => (nth jj ind 0, nth jj dat zero))
      (seq (nth i ip 0) (nth (S i) ip 0 - nth i ip 0)).

(** The sizes of the three groups and a genome length for which the slice
    of a group that runs short holds exactly one value and every later
    group is empty: numpy then replicates the value over the group. *)
Definition short_by_broadcast (v_size w_size t_size len : nat) : bool :=
  if len <? v_size then (len =? 1) && (w_size =? 0) && (t_size =? 0)
  else if len <? v_size + w_size then (len =? v_size + 1) && (t_size =? 0)
  else len =? v_size + w_size + 1.

End Specification.

(** ** Generating a brain state *)

Section GenerateBrainState.
Context {F : Type} `{Scalar F}.

Definition known_mask_type (mask_type : string) : bool :=
  String.eqb mask_type "random" || String.eqb mask_type "dense".

(** A call of [_generate_mask] with Python integers for the two dimensions:
    [np.random.rand] and [np.ones] raise on a negative dimension, before any
    value is drawn; an unknown type raises first, whatever the dimensions. *)
Definition _generate_mask_int (mask_type : string) (n m : Z) (mask_density : F)
  (keep_main_diagonal : bool) (g : rng) : rng * result mask :=
  if ((n <? 0)%Z || (m <? 0)%Z) && known_mask_type mask_type then
    (g, Raise ValueError_negative_dimensions)
  else
    _generate_mask mask_type (Z.to_nat n) (Z.to_nat m) mask_density
      keep_main_diagonal g.

Definition generate_brain_state (number_inputs number_outputs : Z)
  (configuration : configuration) (g : rng) : rng * result brain_state :=
  let config := ContinuousTimeRNNCfg_init configuration in
  match _generate_mask_int (v_mask config) (number_neurons config)
          number_inputs (v_mask_density config) false g with
  | (g1, Raise e) => (g1, Raise e)
  | (g1, Ok vm) =>
      match _generate_mask_int (w_mask config) (number_neurons config)
              (number_neurons config) (w_mask_density config) true g1 with
      | (g2, Raise e) => (g2, Raise e)
      | (g2, Ok wm) =>
          match _generate_mask_int (t_mask config) number_outputs
                  (number_neurons config) (t_mask_density config) false g2 with
          | (g3, Raise e) => (g3, Raise e)
          | (g3, Ok tm) => (g3, Ok (get_brain_state_from_masks vm wm tm))
          end
      end
  end.

(** The random source that the last draw of [_generate_mask] reads from:
    for the type ["random"], the one left by the first draw. *)
Definition last_source (mask_type : string) (n m : nat) (g : rng (F := F))
  : rng (F := F) :=
  if String.eqb mask_type "random" then fst (np_random_rand n m g) else g.

(** The number of values that one call of [_generate_mask] takes from the
    random source: the returned draw, and for the type ["random"] the draw
    of the mask it builds first. *)
Definition draws_of (mask_type : string) (n m : nat) : nat :=
  (if String.eqb mask_type "random" then 2 else 1) * (n * m).

(** The shape of a mask, as [mask.shape]. *)
Definition mask_shape (m : mask) : nat * nat := (nrows m, ncols m).

(** What scipy requires of the three arrays of a sparse matrix: one row
    pointer more than rows, from zero up to the number of stored entries
    without ever decreasing, one column number per stored value, every
    column number below the column count. *)
Definition csr_wf (A : csr (F := F)) : Prop :=
  length (indptr A) = S (fst (shape A))
  /\ nth 0 (indptr A) 0 = 0
  /\ nth (fst (shape A)) (indptr A) 0 = length (data A)
  /\ length (indices A) = length (data A)
  /\ (forall i, i < fst (shape A) ->
                nth i (indptr A) 0 <= nth (S i) (indptr A) 0)
  /\ Forall (fun j => j < snd (shape A)) (indices A).

(** The controllers that steps and resets lead to from [c0]. *)
Inductive reachable_from (c0 : ContinuousTimeRNN) : ContinuousTimeRNN -> Prop :=
| from_start : reachable_from c0 c0
| from_step c u : reachable_from c0 c -> reachable_from c0 (fst (step u c))
| from_reset c : reachable_from c0 c -> reachable_from c0 (fst (reset c)).

End GenerateBrainState.

(** ** The validation script

    [visualization.py] loads a brain state and a genome, builds the
    controller and runs it against an environment, one episode per seed.
    The environment class is not part of these sources: its constructor and
    its two methods are parameters here.  Rendering and sleeping do not feed
    back into the loop and are left out.  An episode runs until
    the environment says it is done; [fuel] bounds the number of steps, and
    [None] stands for an episode that is still running when it is used up.
    Of what the script prints, the reward of each seed is kept. *)

Section Visualization.
Context {F : Type} `{Scalar F}.

Variable env : Type.
(** [CollectPointsEnv(env_seed)] *)
Variable CollectPointsEnv : Z -> env.
(** [env.reset()]: the environment after the call and the observation. *)
Variable env_reset : env -> env * list F.
(** [env.step(action)]: the environment after the call, the observation,
    the reward and the done flag. *)
Variable env_step : env -> list F -> env * (list F * F * bool).

Notation "x <<- e ;; k" := (mbind e (fun x => k))
  (at level 61, e at next level, right associativity).

(** The brain of the script: the saved brain state is loaded, then the
    controller is built from the genome and the configuration. *)
Definition load_brain (path : string) (fs : filesystem) (individual : list F)
  (configuration : configuration) : result ContinuousTimeRNN :=
  brain_state <- load_brain_state path fs ;;
  __init__ individual configuration brain_state.

(** The [while not done] loop. *)
Fixpoint episode_loop (fuel : nat) (e : env) (ob : list F)
  (fitness_current : F) : method (option F) :=
  match fuel with
  | 0 => mret None
  | S fuel' =>
      action <<- step ob ;;
      let '(e', (ob', rew, done)) := env_step e action in
      let fitness_current := add fitness_current rew in
      if done then mret (Some fitness_current)
      else episode_loop fuel' e' ob' fitness_current
  end.

(** The body of the loop over the seeds, up to the fitness of the episode. *)
Definition run_episode (fuel : nat) (env_seed : Z) : method (option F) :=
  let '(e, ob) := env_reset (CollectPointsEnv env_seed) in
  _ <<- reset ;;
  episode_loop fuel e ob zero.

(** The loop over the seeds, from [fitness_total] on: the pairs of seed and
    reward that the script prints, in order, and the total. *)
Fixpoint validation_runs (fuel : nat) (seeds : list Z) (fitness_total : F)
  : method (option (list (Z * F) * F)) :=
  match seeds with
  | [] => mret (Some ([], fitness_total))
  | env_seed :: seeds' =>
      r <<- run_episode fuel env_seed ;;
      match r with
      | None => mret None
      | Some fitness_current =>
          r' <<- validation_runs fuel seeds'
                   (add fitness_total fitness_current) ;;
          match r' with
          | None => mret None
          | Some (printed, total) =>
              mret (Some ((env_seed, fitness_current) :: printed, total))
          end
      end
  end.

End Visualization.

(** ** Examples on the integers *)

Module Examples.

Open Scope Z_scope.

(** Two neurons, one input, one output. *)
Definition v_mask0 : mask := {| ncols := 1; rows := [[true]; [true]] |}.
Definition w_mask0 : mask := {| ncols := 2; rows := [[true; false]; [true; true]] |}.
Definition t_mask0 : mask := {| ncols := 2; rows := [[false; true]] |}.

Definition brain_state0 : brain_state :=
  get_brain_state_from_masks v_mask0 w_mask0 t_mask0.

Definition configuration0 : configuration (F := Z) :=
  {| cfg_type := "CTRNN"; cfg_delta_t := 2; cfg_number_neurons := 2;
     cfg_v_mask := None; cfg_v_mask_density := None;
     cfg_w_mask := None; cfg_w_mask_density := None;
     cfg_t_mask := None; cfg_t_mask_density := None;
     cfg_clipping_range_min := Some (-5); cfg_clipping_range_max := Some 5 |}.

(** The same with the default clipping range, which is inverted. *)
Definition configuration_default : configuration (F := Z) :=
  {| cfg_type := "CTRNN"; cfg_delta_t := 2; cfg_number_neurons := 2;
     cfg_v_mask := None; cfg_v_mask_density := None;
     cfg_w_mask := None; cfg_w_mask_density := None;
     cfg_t_mask := None; cfg_t_mask_density := None;
     cfg_clipping_range_min := None; cfg_clipping_range_max := None |}.

(** A configuration with a zero time step, no neuron and an inverted
    clipping range. *)
Definition configuration_degenerate : configuration (F := Z) :=
  {| cfg_type := "CTRNN"; cfg_delta_t := 0; cfg_number_neurons := 0;
     cfg_v_mask := None; cfg_v_mask_density := None;
     cfg_w_mask := None; cfg_w_mask_density := None;
     cfg_t_mask := None; cfg_t_mask_density := None;
     cfg_clipping_range_min := Some 1; cfg_clipping_range_max := Some (-1) |}.

Definition individual0 : list Z := [1; 2; 3; 4; 5; 6].

Definition brain0 : ContinuousTimeRNN (F := Z) :=
  {| config := ContinuousTimeRNNCfg_init configuration0;
     V := with_data (csr_matrix v_mask0) [1; 2];
     W := with_data (csr_matrix w_mask0) [3; 4; 5];
     T := with_data (csr_matrix t_mask0) [6];
     x := [0; 0] |}.

Definition brain_default : ContinuousTimeRNN (F := Z) :=
  {| config := ContinuousTimeRNNCfg_init configuration_default;
     V := with_data (csr_matrix v_mask0) [1; 2];
     W := with_data (csr_matrix w_mask0) [3; 4; 5];
     T := with_data (csr_matrix t_mask0) [6];
     x := [0; 0] |}.

(** A brain state for no neuron at all: [V] is 0 x 1, [W] is 0 x 0 and [T]
    is 1 x 0. *)
Definition brain_state_empty : brain_state :=
  get_brain_state_from_masks {| ncols := 1; rows := [] |}
    {| ncols := 0; rows := [] |} {| ncols := 0; rows := [[]] |}.

(** A brain state whose only connections are the two of [V]. *)
Definition brain_state_v_only : brain_state :=
  get_brain_state_from_masks v_mask0
    {| ncols := 2; rows := [[false; false]; [false; false]] |}
    {| ncols := 2; rows := [[false; false]] |}.

(** The two-neuron controller with an output matrix of three columns. *)
Definition brain_wide_T : ContinuousTimeRNN (F := Z) :=
  {| config := ContinuousTimeRNNCfg_init configuration0;
     V := with_data (csr_matrix v_mask0) [1; 2];
     W := with_data (csr_matrix w_mask0) [3; 4; 5];
     T := with_data
            (csr_matrix {| ncols := 3; rows := [[true; false; true]] |})
            [6; 7];
     x := [0; 0] |}.

(** The configuration of the example with three neurons announced, one
    more than the masks of the example have. *)
Definition configuration_three : configuration (F := Z) :=
  {| cfg_type := "CTRNN"; cfg_delta_t := 2; cfg_number_neurons := 3;
     cfg_v_mask := None; cfg_v_mask_density := None;
     cfg_w_mask := None; cfg_w_mask_density := None;
     cfg_t_mask := None; cfg_t_mask_density := None;
     cfg_clipping_range_min := Some (-5); cfg_clipping_range_max := Some 5 |}.

Definition brain_three : ContinuousTimeRNN (F := Z) :=
  {| config := ContinuousTimeRNNCfg_init configuration_three;
     V := with_data (csr_matrix v_mask0) [1; 2];
     W := with_data (csr_matrix w_mask0) [3; 4; 5];
     T := with_data (csr_matrix t_mask0) [6];
     x := [0; 0; 0] |}.

(** A configuration that asks for a mask type of [W] that does not exist. *)
Definition configuration_sparse : configuration (F := Z) :=
  {| cfg_type := "CTRNN"; cfg_delta_t := 2; cfg_number_neurons := 2;
     cfg_v_mask := None; cfg_v_mask_density := None;
     cfg_w_mask := Some "sparse"%string; cfg_w_mask_density := None;
     cfg_t_mask := None; cfg_t_mask_density := None;
     cfg_clipping_range_min := None; cfg_clipping_range_max := None |}.

(** A toy environment: its state is a counter that starts at the seed, the
    observation is the counter, the reward is the first component of the
    action, and the episode is done when the counter reaches three. *)
Definition toy_env (env_seed : Z) : Z := env_seed.

Definition toy_env_reset (e : Z) : Z * list Z := (e, [e]).

Definition toy_env_step (e : Z) (action : list Z) : Z * (list Z * Z * bool) :=
  (e + 1, ([e + 1], hd 0 action, 3 <=? e + 1)).

(** A random source whose draws are all zero. *)
Definition rng0 : rng (F := Z) := fun _ => 0.



End Examples.

(** ** Examples on binary64 floats *)

Module FloatExamples.

(** The kernel's binary64 numbers have no hyperbolic tangent: the squashing
    function [v / (1 + |v|)] stands in for [np.tanh].  Like [np.tanh] it is
    odd, keeps zero and sends NaN to NaN, which is all the examples below
    use. *)
Definition softsign (v : PrimFloat.float) : PrimFloat.float :=
  PrimFloat.div v (PrimFloat.add PrimFloat.one (PrimFloat.abs v)).

#[global] Instance float_scalar : Scalar PrimFloat.float := {
  zero := PrimFloat.zero;
  one := PrimFloat.one;
  opp := PrimFloat.opp;
  add := PrimFloat.add;
  mul := PrimFloat.mul;
  ltb := PrimFloat.ltb;
  tanh := softsign;
  isnan := PrimFloat.is_nan
}.

Fixpoint pow2 (n : nat) : PrimFloat.float :=
  match n with
  | O => PrimFloat.one
  | S n' => PrimFloat.mul PrimFloat.two (pow2 n')
  end.

(** [2^1023], the largest power of two among the binary64 numbers. *)
Definition huge : PrimFloat.float := pow2 1023.

(** One neuron, two inputs, one output, every connection present. *)
Definition v_mask_nan : mask := {| ncols := 2; rows := [[true; true]] |}.
Definition w_mask_nan : mask := {| ncols := 1; rows := [[true]] |}.
Definition t_mask_nan : mask := {| ncols := 1; rows := [[true]] |}.

Definition brain_state_nan : brain_state :=
  get_brain_state_from_masks v_mask_nan w_mask_nan t_mask_nan.

(** The default clipping range: [1.0] for the minimum, [-1.0] for the
    maximum. *)
Definition configuration_nan : configuration (F := PrimFloat.float) :=
  {| cfg_type := "CTRNN"; cfg_delta_t := PrimFloat.one;
     cfg_number_neurons := 1;
     cfg_v_mask := None; cfg_v_mask_density := None;
     cfg_w_mask := None; cfg_w_mask_density := None;
     cfg_t_mask := None; cfg_t_mask_density := None;
     cfg_clipping_range_min := None; cfg_clipping_range_max := None |}.

(** A genome of finite values: the two input weights are [2^1023] and
    [-2^1023]. *)
Definition individual_nan : list PrimFloat.float :=
  [huge; PrimFloat.opp huge; PrimFloat.one; PrimFloat.one].

(** An input of finite values. *)
Definition input_nan : list PrimFloat.float := [PrimFloat.two; PrimFloat.two].

Definition brain_nan : ContinuousTimeRNN (F := PrimFloat.float) :=
  {| config := ContinuousTimeRNNCfg_init configuration_nan;
     V := with_data (csr_matrix v_mask_nan) [huge; PrimFloat.opp huge];
     W := with_data (csr_matrix w_mask_nan) [PrimFloat.one];
     T := with_data (csr_matrix t_mask_nan) [PrimFloat.one];
     x := [PrimFloat.zero] |}.

End FloatExamples.

(** * Properties *)

(** ** Dictionaries *)

Lemma dict_lookup_setitem {V : Type} (k : string) (v : V) (d : dict V) :
  dict_lookup k (dict_setitem k v d) = Some v.
Proof.
  induction d as [|[k' v'] d IH]; simpl.
  - now rewrite String.eqb_refl.
  - destruct (String.eqb k k') eqn:E; simpl.
    + now rewrite String.eqb_refl.
    + now rewrite E.
Qed.

Lemma get_masks_of_masks (vm wm tm : mask) :
  get_masks_from_brain_state (get_brain_state_from_masks vm wm tm)
  = Ok (vm, wm, tm).
Proof. reflexivity. Qed.

(** ** Masks *)

Lemma wf_maskb_true (m : mask) : wf_maskb m = true -> wf_mask m.
Proof.
  unfold wf_maskb, wf_mask. rewrite forallb_forall, Forall_forall.
  intros Hm r Hr. apply Nat.eqb_eq. now apply Hm.
Qed.

(** ** Parameter accounting *)

(** C8: for every brain state holding the three masks, the individual size
    is the sum of the nonzero counts of [v_mask], [w_mask] and [t_mask]; the
    free-parameter usage maps ["V"], ["W"] and ["T"] to the three counts,
    and the individual size is the sum of its values. *)
Theorem get_individual_size_sum (bs : brain_state) (vm wm tm : mask) :
  get_masks_from_brain_state bs = Ok (vm, wm, tm) ->
  get_individual_size bs
  = Ok (count_nonzero vm + count_nonzero wm + count_nonzero tm)
  /\ exists usage,
       get_free_parameter_usage bs = Ok usage
       /\ map fst usage = ["V"; "W"; "T"]%string
       /\ dict_lookup "V" usage = Some (count_nonzero vm)
       /\ dict_lookup "W" usage = Some (count_nonzero wm)
       /\ dict_lookup "T" usage = Some (count_nonzero tm)
       /\ get_individual_size bs = Ok (list_sum (dict_values usage)).
Proof.
  intros Hm.
  unfold get_individual_size, get_free_parameter_usage.
  rewrite Hm. cbn [bind dict_values map snd fold_left].
  split.
  - f_equal; lia.
  - eexists. split; [reflexivity|].
    cbn [map fst snd dict_lookup list_sum dict_values].
    repeat split; try reflexivity.
    unfold list_sum. cbn [fold_right]. f_equal; lia.
Qed.

Lemma get_individual_size_sum_witness :
  get_individual_size Examples.brain_state0 = Ok (2 + 3 + 1)
  /\ exists usage,
       get_free_parameter_usage Examples.brain_state0 = Ok usage
       /\ map fst usage = ["V"; "W"; "T"]%string
       /\ dict_lookup "V" usage = Some 2
       /\ dict_lookup "W" usage = Some 3
       /\ dict_lookup "T" usage = Some 1
       /\ get_individual_size Examples.brain_state0
          = Ok (list_sum (dict_values usage)).
Proof.
  apply (get_individual_size_sum Examples.brain_state0
           (vm := Examples.v_mask0) (wm := Examples.w_mask0)
           (tm := Examples.t_mask0)).
  reflexivity.
Defined.

(** ** Lists *)


Lemma map_seq_nth {A B : Type} (f : A -> B) (l : list A) (d : A) :
  map f l = map (fun i => f (nth i l d)) (seq 0 (length l)).
Proof.
  induction l as [|a l IH]; [reflexivity|].
  cbn [length seq map nth]. rewrite <- seq_shift, map_map. now rewrite IH.
Qed.

Lemma map_combine_maps {A B C D : Type} (f : B -> C -> D) (h1 : A -> B)
  (h2 : A -> C) (l : list A) :
  map (fun p => f (fst p) (snd p)) (combine (map h1 l) (map h2 l))
  = map (fun a => f (h1 a) (h2 a)) l.
Proof. induction l as [|a l IH]; simpl; [reflexivity | now rewrite IH]. Qed.

Lemma map_combine_seq_left {A B C : Type} (f : A -> B -> C) (l : list A)
  (h : nat -> B) (d : A) :
  map (fun p => f (fst p) (snd p)) (combine l (map h (seq 0 (length l))))
  = map (fun i => f (nth i l d) (h i)) (seq 0 (length l)).
Proof.
  rewrite <- (map_combine_maps f (fun i => nth i l d) h).
  rewrite <- (map_seq_nth (fun a => a) l d), map_id. reflexivity.
Qed.

Lemma map_combine_nth {A B C : Type} (f : A -> B -> C) (a : list A)
  (b : list B) (da : A) (db : B) :
  length a = length b ->
  map (fun p => f (fst p) (snd p)) (combine a b)
  = map (fun i => f (nth i a da) (nth i b db)) (seq 0 (length a)).
Proof.
  revert b. induction a as [|a0 a IH]; intros [|b0 b] Hlen;
    try discriminate; [reflexivity|].
  cbn [combine map length seq nth fst snd]. f_equal.
  rewrite <- seq_shift, map_map. apply IH. simpl in Hlen. lia.
Qed.

(** ** The controller: construction, step and reset *)

Section Controller.
Context {F : Type} `{Scalar F}.

Lemma np_zeros_ok (n : Z) (xs : list F) :
  np_zeros n = Ok xs -> (0 <= n)%Z /\ xs = repeat zero (Z.to_nat n).
Proof.
  unfold np_zeros. destruct (n <? 0)%Z eqn:E; [discriminate|].
  intros [= <-]. apply Z.ltb_ge in E. now split.
Qed.

Lemma np_zeros_nonneg (n : Z) :
  (0 <= n)%Z -> np_zeros n = Ok (repeat zero (Z.to_nat n)).
Proof.
  intros Hn. unfold np_zeros.
  destruct (n <? 0)%Z eqn:E; [apply Z.ltb_lt in E; lia | reflexivity].
Qed.

Lemma np_zeros_negative (n : Z) :
  (n < 0)%Z -> np_zeros (F := F) n = Raise ValueError_negative_dimensions.
Proof.
  intros Hn. unfold np_zeros. apply Z.ltb_lt in Hn. now rewrite Hn.
Qed.

Lemma csr_matvec_length (A : csr) (v : list F) :
  length (csr_matvec A v) = fst (shape A).
Proof. unfold csr_matvec. now rewrite length_map, length_seq. Qed.

Lemma np_add_same_length (a b : list F) :
  length a = length b ->
  np_add a b = Ok (map (fun p => add (fst p) (snd p)) (combine a b)).
Proof. intros Hab. unfold np_add. now rewrite Hab, Nat.eqb_refl. Qed.

(** What a successful construction returns. *)
Lemma init_ok (g : list F) (cfg : configuration) (bs : brain_state)
  (c : ContinuousTimeRNN) :
  __init__ g cfg bs = Ok c ->
  exists vm wm tm vd wd td,
    get_masks_from_brain_state bs = Ok (vm, wm, tm)
    /\ np_setitem_all (data (csr_matrix vm)) (py_slice g 0 (count_nonzero vm))
       = Ok vd
    /\ np_setitem_all (data (csr_matrix wm))
         (py_slice g (count_nonzero vm) (count_nonzero vm + count_nonzero wm))
       = Ok wd
    /\ np_setitem_all (data (csr_matrix tm))
         (py_slice g (count_nonzero vm + count_nonzero wm)
            (count_nonzero vm + count_nonzero wm + count_nonzero tm))
       = Ok td
    /\ (0 <= cfg_number_neurons cfg)%Z
    /\ c = {| config := ContinuousTimeRNNCfg_init cfg;
              V := with_data (csr_matrix vm) vd;
              W := with_data (csr_matrix wm) wd;
              T := with_data (csr_matrix tm) td;
              x := repeat zero (Z.to_nat (cfg_number_neurons cfg)) |}.
Proof.
  unfold __init__. intros Hc.
  destruct (get_masks_from_brain_state bs) as [[[vm wm] tm]|e] eqn:Hm;
    [|discriminate].
  cbn [bind] in Hc.
  destruct (np_setitem_all (data (csr_matrix vm)) _) as [vd|e] eqn:Hv;
    [|discriminate].
  cbn [bind] in Hc.
  destruct (np_setitem_all (data (csr_matrix wm)) _) as [wd|e] eqn:Hw;
    [|discriminate].
  cbn [bind] in Hc.
  destruct (np_setitem_all (data (csr_matrix tm)) _) as [td|e] eqn:Ht;
    [|discriminate].
  cbn [bind] in Hc.
  destruct (np_zeros _) as [x0|e] eqn:Hz; [|discriminate].
  cbn [bind] in Hc. injection Hc as <-.
  apply np_zeros_ok in Hz. cbn in Hz. destruct Hz as [Hn ->].
  exists vm, wm, tm, vd, wd, td. repeat split; assumption || reflexivity.
Qed.

(** The matrices of a constructed controller have the shapes of the masks. *)
Lemma init_shapes (g : list F) (cfg : configuration) (bs : brain_state)
  (vm wm tm : mask) (c : ContinuousTimeRNN) :
  get_masks_from_brain_state bs = Ok (vm, wm, tm) ->
  __init__ g cfg bs = Ok c ->
  shape (V c) = (nrows vm, ncols vm)
  /\ shape (W c) = (nrows wm, ncols wm)
  /\ shape (T c) = (nrows tm, ncols tm).
Proof.
  intros Hm Hc. apply init_ok in Hc.
  destruct Hc as (vm' & wm' & tm' & vd & wd & td & Hm' & _ & _ & _ & _ & ->).
  rewrite Hm in Hm'. injection Hm' as <- <- <-.
  repeat split; reflexivity.
Qed.

(** On shapes that fit the differential equation, a step clips the Euler
    update and goes on to the output product. *)
Lemma step_euler (c : ContinuousTimeRNN) (u : list F) :
  shape (W c) = (length (x c), length (x c)) ->
  shape (V c) = (length (x c), length u) ->
  step u c
  = match csr_dot (T c)
            (np_clip (euler_update c u) (clipping_range_min (config c))
               (clipping_range_max (config c))) with
    | Ok Tx =>
        (with_x c (np_clip (euler_update c u) (clipping_range_min (config c))
                     (clipping_range_max (config c))),
         Ok (np_tanh Tx))
    | Raise e =>
        (with_x c (np_clip (euler_update c u) (clipping_range_min (config c))
                     (clipping_range_max (config c))),
         Raise e)
    end.
Proof.
  intros HW HV.
  assert (Heuler :
            map (fun p => add (fst p) (snd p))
              (combine (x c)
                 (np_scale (delta_t (config c))
                    (map (fun p => add (fst p) (snd p))
                       (combine (csr_matvec (W c) (np_tanh (x c)))
                          (csr_matvec (V c) u)))))
            = euler_update c u).
  { rewrite (@map_combine_nth _ _ _ add (csr_matvec (W c) (np_tanh (x c)))
               (csr_matvec (V c) u) zero zero)
      by (rewrite !csr_matvec_length, HW, HV; reflexivity).
    rewrite csr_matvec_length, HW. cbn [fst].
    unfold np_scale. rewrite map_map.
    rewrite (map_combine_seq_left add (x c) _ zero). reflexivity. }
  unfold step, mbind, get_self, lift, set_x, mret.
  unfold csr_dot at 1. unfold np_tanh at 1.
  rewrite length_map, HW. cbn [snd]. rewrite Nat.eqb_refl.
  unfold csr_dot at 1. rewrite HV. cbn [snd]. rewrite Nat.eqb_refl.
  rewrite np_add_same_length
    by (rewrite !csr_matvec_length, HW, HV; reflexivity).
  rewrite np_add_same_length.
  2:{ unfold np_scale.
      rewrite !length_map, length_combine, !csr_matvec_length, HW, HV.
      cbn [fst]. now rewrite Nat.min_id. }
  fold (np_tanh (x c)). rewrite Heuler.
  cbn [x config T with_x].
  destruct (csr_dot (T c) _); reflexivity.
Qed.

Lemma length_euler_update (c : ContinuousTimeRNN) (u : list F) :
  length (euler_update c u) = length (x c).
Proof. unfold euler_update. now rewrite length_map, length_seq. Qed.

(** A step changes no field but the hidden state. *)
Lemma step_frame (u : list F) (c : ContinuousTimeRNN) :
  exists xs, fst (step u c) = with_x c xs.
Proof.
  assert (Hid : c = with_x c (x c)) by (destruct c; reflexivity).
  unfold step, mbind, get_self, lift, set_x, mret.
  destruct (csr_dot (W c) _); [|exists (x c); exact Hid].
  destruct (csr_dot (V c) u); [|exists (x c); exact Hid].
  destruct (np_add _ _); [|exists (x c); exact Hid].
  destruct (np_add _ _); [|exists (x c); exact Hid].
  cbn [x config T with_x].
  destruct (csr_dot _ _); cbn [fst]; eexists; reflexivity.
Qed.

Lemma reset_frame (c : ContinuousTimeRNN) :
  exists xs, fst (reset c) = with_x c xs.
Proof.
  unfold reset, mbind, get_self, lift, set_x.
  destruct (np_zeros _); cbn [fst].
  - eexists; reflexivity.
  - exists (x c). destruct c; reflexivity.
Qed.

Lemma reachable_number_neurons (c : ContinuousTimeRNN) :
  reachable c -> (0 <= number_neurons (config c))%Z.
Proof.
  induction 1 as [g cfg bs c Hc | c u _ IH | c _ IH].
  - apply init_ok in Hc.
    destruct Hc as (vm & wm & tm & vd & wd & td & _ & _ & _ & _ & Hn & ->).
    exact Hn.
  - destruct (step_frame u c) as [xs ->]. exact IH.
  - destruct (reset_frame c) as [xs ->]. exact IH.
Qed.

(** C10: the hidden state is the zero vector of length [number_neurons]
    right after construction; on every controller a program can hold,
    whatever steps came before, [reset] does not fail, leaves the zero vector
    of that length in [x] and leaves [config], [V], [W] and [T] as they
    were. *)
Theorem reset_zeroes_state :
  (forall (g : list F) (cfg : configuration) (bs : brain_state)
          (c : ContinuousTimeRNN),
      __init__ g cfg bs = Ok c ->
      number_neurons (config c) = cfg_number_neurons cfg
      /\ x c = repeat zero (length (x c))
      /\ Z.of_nat (length (x c)) = cfg_number_neurons cfg)
  /\ (forall c : ContinuousTimeRNN,
         reachable c ->
         snd (reset c) = Ok tt
         /\ x (fst (reset c))
            = repeat zero (Z.to_nat (number_neurons (config c)))
         /\ config (fst (reset c)) = config c
         /\ V (fst (reset c)) = V c
         /\ W (fst (reset c)) = W c
         /\ T (fst (reset c)) = T c).
Proof.
  split.
  - intros g cfg bs c Hc. apply init_ok in Hc.
    destruct Hc as (vm & wm & tm & vd & wd & td & _ & _ & _ & _ & Hn & ->).
    cbn [x config number_neurons ContinuousTimeRNNCfg_init].
    rewrite repeat_length. repeat split. now apply Z2Nat.id.
  - intros c Hc. apply reachable_number_neurons in Hc.
    unfold reset, mbind, get_self, lift, set_x.
    rewrite (np_zeros_nonneg Hc). cbn. repeat split; reflexivity.
Qed.

(** C9: an input vector whose length is not the column count of [V] makes
    [step] raise the dimension-mismatch error of the sparse product, and the
    controller is left exactly as it was. *)
Theorem step_rejects_wrong_length (c : ContinuousTimeRNN) (u : list F) :
  length u <> snd (shape (V c)) ->
  step u c = (c, Raise ValueError_dimension_mismatch).
Proof.
  intros Hu.
  unfold step, mbind, get_self, lift.
  destruct (csr_dot (W c) (np_tanh (x c))) as [Wx|e] eqn:HW.
  - unfold csr_dot at 1.
    apply Nat.eqb_neq in Hu. rewrite Hu. reflexivity.
  - unfold csr_dot in HW.
    destruct (length (np_tanh (x c)) =? snd (shape (W c))); [discriminate|].
    injection HW as <-. reflexivity.
Qed.

End Controller.

Lemma step_rejects_wrong_length_witness :
  step [1; 2]%Z Examples.brain0
  = (Examples.brain0, Raise ValueError_dimension_mismatch).
Proof.
  apply (@step_rejects_wrong_length Z Z_scalar Examples.brain0 [1; 2]%Z).
  vm_compute. discriminate.
Defined.

(** ** The clamp with an inverted range *)

Lemma Z_ltb_asym (a b : Z) : (a <? b)%Z = true -> (b <? a)%Z = false.
Proof. intros Hab. apply Z.ltb_lt in Hab. apply Z.ltb_ge. lia. Qed.

Lemma Z_ltb_trans (a b c : Z) :
  (a <? b)%Z = true -> (b <? c)%Z = true -> (a <? c)%Z = true.
Proof.
  intros Hab Hbc. apply Z.ltb_lt in Hab. apply Z.ltb_lt in Hbc.
  apply Z.ltb_lt. lia.
Qed.

Lemma map_constant {A B : Type} (b : B) (l : list A) :
  map (fun _ => b) l = repeat b (length l).
Proof. induction l as [|a l IH]; simpl; [reflexivity | now rewrite IH]. Qed.

Lemma Forall_repeat {A : Type} (P : A -> Prop) (a : A) (n : nat) :
  P a -> Forall P (repeat a n).
Proof. intros Ha. induction n; simpl; constructor; assumption. Qed.

Section InvertedRange.
Context {F : Type} `{Scalar F}.

(** [<] is a strict order on the scalars, and no scalar is below a NaN. *)
Hypothesis ltb_asym : forall a b : F, ltb a b = true -> ltb b a = false.
Hypothesis ltb_trans :
  forall a b c : F, ltb a b = true -> ltb b c = true -> ltb a c = true.
Hypothesis ltb_nan_r : forall a b : F, isnan b = true -> ltb a b = false.

Lemma clip1_inverted (lo hi v : F) :
  ltb hi lo = true -> clip1 lo hi v = if isnan v then v else hi.
Proof.
  intros Hinv. unfold clip1.
  destruct (isnan v) eqn:Hv; [now rewrite Hv|].
  assert (Hnlo : isnan lo = false).
  { destruct (isnan lo) eqn:Hn; [|reflexivity].
    rewrite (ltb_nan_r hi lo Hn) in Hinv. discriminate. }
  destruct (ltb lo v) eqn:Hlo.
  - rewrite Hv. destruct (ltb v hi) eqn:Hhi; [|reflexivity].
    pose proof (ltb_trans _ _ _ Hinv Hlo) as Hhv.
    apply ltb_asym in Hhv. congruence.
  - rewrite Hnlo, (ltb_asym _ _ Hinv). reflexivity.
Qed.

Lemma np_clip_inverted (a : list F) (lo hi : F) :
  ltb hi lo = true ->
  np_clip a lo hi = map (fun v => if isnan v then v else hi) a.
Proof.
  intros Hinv. unfold np_clip.
  apply map_ext. intros v. now apply clip1_inverted.
Qed.

Lemma map_without_nan (hi : F) (a : list F) :
  Forall (fun v => isnan v = false) a ->
  map (fun v => if isnan v then v else hi) a = repeat hi (length a).
Proof.
  induction 1 as [|v a Hv _ IH]; [reflexivity|].
  cbn [map length repeat]. now rewrite Hv, IH.
Qed.

Lemma Forall_max_or_nan (hi : F) (a : list F) :
  Forall (fun v => v = hi \/ isnan v = true)
    (map (fun v => if isnan v then v else hi) a).
Proof.
  induction a as [|v a IH]; cbn [map]; constructor; [|exact IH].
  destruct (isnan v) eqn:Hv; [now right | now left].
Qed.

(** C6: when [clipping_range_min > clipping_range_max], as with the
    defaults, the clamp never raises and sets every component of the hidden
    state that is not NaN to [clipping_range_max]; a NaN component stays NaN.
    A step that returns leaves such a state and returns [tanh(T . x)] of it; a
    step that raises either left the controller untouched or raised in the
    output product after the clamp.  With consistent shapes the step returns,
    the new state is the Euler update with every component that is not NaN
    replaced by [clipping_range_max], and when the Euler update holds no NaN
    the new state is the constant vector [clipping_range_max] and the output
    is [tanh(T . c)] of that vector. *)
Theorem step_inverted_range (c : ContinuousTimeRNN) (u : list F) :
  ltb (clipping_range_max (config c)) (clipping_range_min (config c)) = true ->
  (forall c' r,
      step u c = (c', r) ->
      match r with
      | Ok y =>
          Forall (fun v => v = clipping_range_max (config c)
                           \/ isnan v = true) (x c')
          /\ c' = with_x c (x c')
          /\ y = np_tanh (csr_matvec (T c) (x c'))
      | Raise e =>
          c' = c
          \/ (Forall (fun v => v = clipping_range_max (config c)
                               \/ isnan v = true) (x c')
              /\ c' = with_x c (x c'))
      end)
  /\ (shape (W c) = (length (x c), length (x c)) ->
      shape (V c) = (length (x c), length u) ->
      snd (shape (T c)) = length (x c) ->
      step u c
      = (with_x c
           (map (fun v => if isnan v then v else clipping_range_max (config c))
              (euler_update c u)),
         Ok (np_tanh (csr_matvec (T c)
               (map (fun v =>
                       if isnan v then v else clipping_range_max (config c))
                  (euler_update c u)))))
      /\ (Forall (fun v => isnan v = false) (euler_update c u) ->
          step u c
          = (with_x c (repeat (clipping_range_max (config c)) (length (x c))),
             Ok (np_tanh (csr_matvec (T c)
                   (repeat (clipping_range_max (config c))
                      (length (x c)))))))).
Proof.
  intros Hinv. split.
  - intros c' r. unfold step, mbind, get_self, lift, set_x, mret.
    destruct (csr_dot (W c) _) as [Wx|e];
      [|intros [= <- <-]; now left].
    destruct (csr_dot (V c) u) as [Vu|e];
      [|intros [= <- <-]; now left].
    destruct (np_add Wx Vu) as [dx|e];
      [|intros [= <- <-]; now left].
    destruct (np_add (x c) _) as [x1|e];
      [|intros [= <- <-]; now left].
    cbn [x config T with_x].
    rewrite (np_clip_inverted _ _ _ Hinv).
    pose proof (Forall_max_or_nan (clipping_range_max (config c)) x1) as Hall.
    unfold csr_dot.
    destruct (_ =? _); intros [= <- <-]; cbn [x].
    + split; [exact Hall | split; reflexivity].
    + right. split; [exact Hall | reflexivity].
  - intros HW HV HT.
    assert (Hstep :
              step u c
              = (with_x c
                   (map (fun v =>
                           if isnan v then v
                           else clipping_range_max (config c))
                      (euler_update c u)),
                 Ok (np_tanh (csr_matvec (T c)
                       (map (fun v =>
                               if isnan v then v
                               else clipping_range_max (config c))
                          (euler_update c u)))))).
    { rewrite (step_euler c u HW HV), (np_clip_inverted _ _ _ Hinv).
      unfold csr_dot.
      rewrite length_map, length_euler_update, HT, Nat.eqb_refl.
      reflexivity. }
    split; [exact Hstep|].
    intros Hnan. rewrite Hstep, (map_without_nan _ Hnan).
    now rewrite length_euler_update.
Qed.

End InvertedRange.

Lemma Z_ltb_nan_r (a b : Z) : isnan b = true -> ltb a b = false.
Proof. discriminate. Qed.

(** The run of one step with the default clipping range [1.0, -1.0]. *)
Lemma step_inverted_range_witness :
  step [1]%Z Examples.brain_default
  = (with_x Examples.brain_default [-1; -1]%Z, Ok [-1]%Z).
Proof.
  refine (proj2 (proj2 (@step_inverted_range Z Z_scalar Z_ltb_asym
                          Z_ltb_trans Z_ltb_nan_r Examples.brain_default
                          [1]%Z eq_refl) eq_refl eq_refl eq_refl) _).
  repeat constructor.
Defined.

(** On binary64 numbers: one neuron with the default clipping range, a
    genome and an input of finite values, the zero state.  The two products
    of the input weights overflow to [+inf] and [-inf], their sum is NaN, the
    clamp keeps it, and the step returns with the hidden state and the
    output at NaN: the component does not equal [clipping_range_max]. *)
Lemma step_inverted_range_nan :
  __init__ FloatExamples.individual_nan FloatExamples.configuration_nan
    FloatExamples.brain_state_nan = Ok FloatExamples.brain_nan
  /\ clipping_range_min (config FloatExamples.brain_nan) = PrimFloat.one
  /\ clipping_range_max (config FloatExamples.brain_nan)
     = PrimFloat.opp PrimFloat.one
  /\ ltb (clipping_range_max (config FloatExamples.brain_nan))
       (clipping_range_min (config FloatExamples.brain_nan)) = true
  /\ Forall (fun v => isnan v = false
                      /\ PrimFloat.ltb (PrimFloat.abs v) PrimFloat.infinity
                         = true)
       (FloatExamples.individual_nan ++ FloatExamples.input_nan
        ++ x FloatExamples.brain_nan)
  /\ step FloatExamples.input_nan FloatExamples.brain_nan
     = (with_x FloatExamples.brain_nan [PrimFloat.nan], Ok [PrimFloat.nan])
  /\ Forall (fun v =>
               isnan v = true
               /\ v <> clipping_range_max (config FloatExamples.brain_nan))
       (x (fst (step FloatExamples.input_nan FloatExamples.brain_nan))).
Proof.
  repeat split; try (vm_compute; reflexivity).
  - repeat constructor.
  - assert (Hx : x (fst (step FloatExamples.input_nan FloatExamples.brain_nan))
                 = [PrimFloat.nan]) by (vm_compute; reflexivity).
    rewrite Hx. repeat constructor.
    intros Heq. apply (f_equal PrimFloat.is_nan) in Heq.
    vm_compute in Heq. discriminate Heq.
Qed.

(** ** The mask generator *)

Section MaskGeneratorProperties.
Context {F : Type} `{Scalar F}.

Lemma np_less_constant (n m : nat) (g : rng) (d : F) (b : bool) :
  (forall k, ltb (g k) d = b) ->
  np_less m (snd (np_random_rand n m g)) d = constant_mask b n m.
Proof.
  intros Hg. unfold np_less, np_random_rand, constant_mask. cbn [snd].
  f_equal. rewrite map_map.
  rewrite (map_ext _ (fun _ => repeat b m)).
  - now rewrite map_constant, length_seq.
  - intros i. rewrite map_map.
    rewrite (map_ext _ (fun _ => b)) by (intros j; apply Hg).
    now rewrite map_constant, length_seq.
Qed.

(** C1, at the input on which it fails: with type ["dense"] and density 0
    the generator returns the all-false matrix, because what it returns is a
    fresh random draw compared with the density, not the all-true mask it
    built. *)
Theorem generate_mask_dense_density_zero (n m : nat) (keep : bool) (g : rng) :
  (forall k, ltb (g k) zero = false) ->
  (keep = true -> n = m) ->
  snd (_generate_mask "dense" n m zero keep g) = Ok (constant_mask false n m).
Proof.
  intros Hg Hkeep. unfold _generate_mask.
  cbn [String.eqb Ascii.eqb Bool.eqb andb].
  assert (Hdraw : np_less m (snd (np_random_rand n m g)) zero
                  = constant_mask false n m)
    by now apply np_less_constant.
  destruct keep.
  - specialize (Hkeep eq_refl). subst m. rewrite Nat.eqb_refl.
    destruct (np_random_rand n n g) as [g2 a] eqn:Hr.
    try rewrite Hr in Hdraw. cbn [snd] in *. now rewrite <- Hdraw.
  - destruct (np_random_rand n m g) as [g2 a] eqn:Hr.
    try rewrite Hr in Hdraw. cbn [snd] in *. now rewrite <- Hdraw.
Qed.

(** With density 1 and draws below 1, every entry is true, for both mask
    types: the draw alone decides. *)
Lemma generate_mask_dense_density_one (n m : nat) (g : rng) :
  (forall k, ltb (g k) one = true) ->
  snd (_generate_mask "dense" n m one false g) = Ok (constant_mask true n m).
Proof.
  intros Hg. unfold _generate_mask.
  cbn [String.eqb Ascii.eqb Bool.eqb andb].
  destruct (np_random_rand n m g) as [g2 a] eqn:Hr. cbn [snd].
  replace a with (snd (np_random_rand n m g)) by now rewrite Hr.
  f_equal. now apply np_less_constant.
Qed.

End MaskGeneratorProperties.

Lemma generate_mask_dense_density_zero_witness :
  snd (_generate_mask "dense" 1 1 0%Z false Examples.rng0)
  = Ok {| ncols := 1; rows := [[false]] |}.
Proof.
  apply (@generate_mask_dense_density_zero Z Z_scalar 1 1 false Examples.rng0).
  - intros k. reflexivity.
  - discriminate.
Defined.

(** ** The state codec *)

Lemma bool_of_byte_of_bool (b : bool) : bool_of_byte (byte_of_bool b) = b.
Proof. destruct b; reflexivity. Qed.

Lemma chunks_concat {A : Type} (m : nat) (rs : list (list A)) :
  Forall (fun r => length r = m) rs ->
  chunks (length rs) m (concat rs) = rs.
Proof.
  induction 1 as [|r rs Hr _ IH]; simpl; [reflexivity|].
  rewrite firstn_app, skipn_app, Hr, Nat.sub_diag.
  rewrite <- Hr at 1 3. rewrite firstn_all, skipn_all.
  simpl. rewrite app_nil_r. now rewrite IH.
Qed.

Lemma length_concat_rows {A : Type} (m : nat) (rs : list (list A)) :
  Forall (fun r => length r = m) rs ->
  length (concat rs) = length rs * m.
Proof.
  induction 1 as [|r rs Hr _ IH]; simpl; [reflexivity|].
  now rewrite length_app, Hr, IH.
Qed.

Lemma mask_of_npy_of_mask (m : mask) :
  wf_mask m -> mask_of_npy (npy_of_mask m) = Ok m.
Proof.
  intros Hwf. unfold mask_of_npy, npy_of_mask. cbn [npy_shape descr payload].
  rewrite length_map, (length_concat_rows Hwf). unfold nrows.
  rewrite Nat.eqb_refl. cbn [String.eqb Ascii.eqb Bool.eqb andb].
  rewrite map_map, (map_ext _ (fun b => b)) by apply bool_of_byte_of_bool.
  rewrite map_id, (chunks_concat Hwf). destruct m; reflexivity.
Qed.

Lemma load_saved_file (path : string) (fs : filesystem) (vm wm tm : mask) :
  wf_mask vm -> wf_mask wm -> wf_mask tm ->
  load_brain_state (savez_filename path)
    (np_savez path (get_brain_state_from_masks vm wm tm) fs)
  = Ok (get_brain_state_from_masks vm wm tm).
Proof.
  intros Hv Hw Ht. unfold load_brain_state, np_load, np_savez.
  rewrite dict_lookup_setitem. cbn [bind].
  unfold npz_getitem, dict_getitem, get_brain_state_from_masks.
  cbn [map fst snd dict_lookup String.eqb Ascii.eqb Bool.eqb andb bind].
  rewrite (mask_of_npy_of_mask Hv), (mask_of_npy_of_mask Hw),
    (mask_of_npy_of_mask Ht).
  reflexivity.
Qed.

Lemma savez_filename_npz (path : string) :
  endswith path ".npz" = true -> savez_filename path = path.
Proof. intros He. unfold savez_filename. now rewrite He. Qed.

(** C7: saving a brain state that holds three boolean matrices under
    [v_mask], [w_mask] and [t_mask] and loading the file that was written
    gives back a brain state with the same three matrices; the file written
    is the one named when the name ends with [.npz]. *)
Theorem load_save_brain_state (path : string) (bs : brain_state)
  (fs : filesystem) (vm wm tm : mask) :
  get_masks_from_brain_state bs = Ok (vm, wm, tm) ->
  wf_mask vm -> wf_mask wm -> wf_mask tm ->
  exists fs',
    save_brain_state path bs fs = Ok fs'
    /\ load_brain_state (savez_filename path) fs'
       = Ok (get_brain_state_from_masks vm wm tm)
    /\ (endswith path ".npz" = true ->
        load_brain_state path fs' = Ok (get_brain_state_from_masks vm wm tm)).
Proof.
  intros Hm Hv Hw Ht. unfold save_brain_state. rewrite Hm. cbn [bind].
  eexists. split; [reflexivity|].
  pose proof (load_saved_file path fs Hv Hw Ht) as Hload.
  split; [exact Hload|].
  intros He. now rewrite (savez_filename_npz _ He) in Hload.
Qed.

Lemma load_save_brain_state_witness :
  exists fs',
    save_brain_state "Brain_State.npz" Examples.brain_state0 [] = Ok fs'
    /\ load_brain_state (savez_filename "Brain_State.npz") fs'
       = Ok (get_brain_state_from_masks Examples.v_mask0 Examples.w_mask0
               Examples.t_mask0)
    /\ (endswith "Brain_State.npz" ".npz" = true ->
        load_brain_state "Brain_State.npz" fs'
        = Ok (get_brain_state_from_masks Examples.v_mask0 Examples.w_mask0
                Examples.t_mask0)).
Proof.
  apply (@load_save_brain_state "Brain_State.npz" Examples.brain_state0 []
           Examples.v_mask0 Examples.w_mask0 Examples.t_mask0).
  - reflexivity.
  - now apply wf_maskb_true.
  - now apply wf_maskb_true.
  - now apply wf_maskb_true.
Defined.

(** A file name without the extension is not the file that is written. *)
Lemma load_unsuffixed_path :
  exists fs',
    save_brain_state "state" Examples.brain_state0 [] = Ok fs'
    /\ load_brain_state "state" fs' = Raise (FileNotFoundError "state")
    /\ load_brain_state "state.npz" fs' = Ok Examples.brain_state0.
Proof. eexists. repeat split; reflexivity. Qed.

(** ** Lists *)

Lemma map_nth_segment {A : Type} (seg p q : list A) (d : A) :
  map (fun jj => nth jj (p ++ seg ++ q) d) (seq (length p) (length seg)) = seg.
Proof.
  revert p. induction seg as [|a seg IH]; intros p; [reflexivity|].
  cbn [length seq map app]. rewrite nth_middle. f_equal.
  specialize (IH (p ++ [a])).
  rewrite length_app, Nat.add_1_r, <- app_assoc in IH. exact IH.
Qed.

Lemma map_pair {A B C : Type} (f : A -> B) (g : A -> C) (l : list A) :
  map (fun a => (f a, g a)) l = combine (map f l) (map g l).
Proof. induction l as [|a l IH]; simpl; [reflexivity | now rewrite IH]. Qed.

Lemma map_with_index {A B C : Type} (G : A -> B -> C) (f : A -> B)
  (l : list A) :
  map (fun a => G a (f a)) l
  = map (fun q => G (fst q) (snd q)) (combine l (map f l)).
Proof. induction l as [|a l IH]; simpl; [reflexivity | now rewrite IH]. Qed.

Lemma combine_app_firstn {A B : Type} (l1 l2 : list A) (d : list B) :
  combine (l1 ++ l2) d
  = combine l1 (firstn (length l1) d) ++ combine l2 (skipn (length l1) d).
Proof.
  revert d. induction l1 as [|a l1 IH]; intros d; [reflexivity|].
  destruct d as [|b d]; simpl.
  - now destruct l2.
  - now rewrite IH.
Qed.

Lemma combine_map_pair {A B : Type} (i : nat) (l : list A) (d : list B) :
  map (fun p => (i, fst p, snd p)) (combine l d) = combine (map (pair i) l) d.
Proof.
  revert d. induction l as [|a l IH]; intros [|b d]; simpl;
    try reflexivity.
  now rewrite IH.
Qed.

Lemma filter_map_comm {A B : Type} (f : B -> bool) (g : A -> B) (l : list A) :
  filter f (map g l) = map g (filter (fun a => f (g a)) l).
Proof.
  induction l as [|a l IH]; simpl; [reflexivity|].
  destruct (f (g a)); simpl; now rewrite IH.
Qed.


(** ** Masks and their sparse matrices *)

Lemma length_nonzero_cols (j : nat) (r : list bool) :
  length (nonzero_cols j r) = count_row r.
Proof.
  revert j. induction r as [|[] r IH]; intros j; simpl;
    [reflexivity | now rewrite IH | apply IH].
Qed.

Lemma indptr_from_head (o : nat) (rs : list (list bool)) :
  nth 0 (indptr_from o rs) 0 = o.
Proof. destruct rs; reflexivity. Qed.

Lemma filter_row (r pre : list bool) :
  filter (fun j => nth j (pre ++ r) false) (seq (length pre) (length r))
  = nonzero_cols (length pre) r.
Proof.
  revert pre. induction r as [|b r IH]; intros pre; [reflexivity|].
  cbn [length seq filter]. rewrite nth_middle.
  specialize (IH (pre ++ [b])).
  rewrite length_app, Nat.add_1_r, <- app_assoc in IH. cbn [app] in IH.
  destruct b; cbn [nonzero_cols]; now rewrite IH.
Qed.

Lemma true_positions_rows (k : nat) (rs pre : list (list bool)) :
  Forall (fun r => length r = k) rs ->
  filter (fun p => nth (snd p) (nth (fst p) (pre ++ rs) []) false)
         (list_prod (seq (length pre) (length rs)) (seq 0 k))
  = row_positions (length pre) rs.
Proof.
  intros Hwf. revert pre.
  induction Hwf as [|r rs Hr _ IH]; intros pre; [reflexivity|].
  cbn [length seq list_prod row_positions]. rewrite filter_app. f_equal.
  - rewrite filter_map_comm. cbn [fst snd]. rewrite nth_middle. f_equal.
    rewrite <- Hr. exact (filter_row r []).
  - specialize (IH (pre ++ [r])).
    rewrite length_app, Nat.add_1_r, <- app_assoc in IH. exact IH.
Qed.

Lemma true_positions_row_positions (m : mask) :
  wf_mask m -> true_positions m = row_positions 0 (rows m).
Proof.
  intros Hwf. unfold true_positions, mask_get, nrows.
  exact (true_positions_rows [] Hwf).
Qed.

Section SparseViews.
Context {F : Type} `{Scalar F}.

Lemma stored_rows_view (rs : list (list bool)) :
  forall (o : nat) (pi : list nat) (pd d : list F),
    length pi = o -> length pd = o ->
    length d = list_sum (map count_row rs) ->
    map (stored_row (indptr_from o rs) (pi ++ flat_map (nonzero_cols 0) rs)
           (pd ++ d))
        (seq 0 (length rs))
    = map (fun q => combine (nonzero_cols 0 (fst q)) (snd q))
          (combine rs (split_rows rs d)).
Proof.
  induction rs as [|r rs IH]; intros o pi pd d Hpi Hpd Hd; [reflexivity|].
  cbn [length seq map combine split_rows fst snd flat_map indptr_from].
  change (length d = count_row r + list_sum (map count_row rs)) in Hd.
  assert (Hseg : length (firstn (count_row r) d) = count_row r)
    by (rewrite length_firstn; lia).
  f_equal.
  - unfold stored_row. cbn [nth]. rewrite indptr_from_head.
    replace (o + count_row r - o) with (count_row r) by lia.
    rewrite map_pair. f_equal.
    + pose proof (map_nth_segment (nonzero_cols 0 r) pi
                    (flat_map (nonzero_cols 0) rs) 0) as Hs.
      rewrite length_nonzero_cols, Hpi in Hs. exact Hs.
    + pose proof (map_nth_segment (firstn (count_row r) d) pd
                    (skipn (count_row r) d) zero) as Hs.
      rewrite firstn_skipn, Hseg, Hpd in Hs. exact Hs.
  - rewrite <- seq_shift, map_map.
    specialize (IH (o + count_row r) (pi ++ nonzero_cols 0 r)
                  (pd ++ firstn (count_row r) d) (skipn (count_row r) d)).
    rewrite <- !app_assoc, firstn_skipn in IH.
    rewrite <- IH.
    + apply map_ext. intros i. reflexivity.
    + rewrite length_app, length_nonzero_cols. lia.
    + rewrite length_app. lia.
    + rewrite length_skipn. lia.
Qed.

Lemma entries_of_rows (rs : list (list bool)) :
  forall (i : nat) (d : list F),
    concat (map (fun q => map (fun p => (fst q, fst p, snd p)) (snd q))
              (combine (seq i (length rs))
                 (map (fun q => combine (nonzero_cols 0 (fst q)) (snd q))
                    (combine rs (split_rows rs d)))))
    = combine (row_positions i rs) d.
Proof.
  induction rs as [|r rs IH]; intros i d; [reflexivity|].
  cbn [length seq map combine split_rows fst snd concat row_positions].
  rewrite IH, combine_app_firstn, length_map, length_nonzero_cols.
  now rewrite combine_map_pair.
Qed.

(** The stored entries of the matrix built from a mask and filled with the
    values [d]: value [k] stands at the [k]-th true position of the mask. *)
Lemma csr_entries_of_mask (m : mask) (d : list F) :
  wf_mask m -> length d = count_nonzero m ->
  csr_entries (with_data (csr_matrix m) d) = combine (true_positions m) d.
Proof.
  intros Hwf Hd. rewrite (true_positions_row_positions Hwf).
  unfold csr_entries, with_data, csr_matrix.
  cbn [shape indptr indices data fst nrows].
  rewrite flat_map_concat_map.
  rewrite (map_ext _
             (fun i => map (fun p => (i, fst p, snd p))
                         (stored_row (indptr_from 0 (rows m))
                            (flat_map (nonzero_cols 0) (rows m)) d i)))
    by (intros i; unfold stored_row; now rewrite map_map).
  rewrite (map_with_index
             (fun i row => map (fun p => (i, fst p, snd p)) row)).
  pose proof (stored_rows_view (rows m) (o := 0) [] [] d eq_refl eq_refl Hd)
    as Hview.
  cbn [app] in Hview. unfold nrows. rewrite Hview.
  apply entries_of_rows.
Qed.

End SparseViews.

(** ** Construction *)

Section Construction.
Context {F : Type} `{Scalar F}.

Lemma length_data_csr_matrix (m : mask) :
  length (data (csr_matrix (F := F) m)) = count_nonzero m.
Proof. apply repeat_length. Qed.

Lemma length_py_slice (g : list F) (a b : nat) :
  length (py_slice g a b) = Nat.min (b - a) (length g - a).
Proof. unfold py_slice. now rewrite length_firstn, length_skipn. Qed.

(** A slice that the genome fills completely is copied. *)
Lemma setitem_slice_exact (m : mask) (g : list F) (a : nat) :
  a + count_nonzero m <= length g ->
  np_setitem_all (data (csr_matrix m)) (py_slice g a (a + count_nonzero m))
  = Ok (firstn (count_nonzero m) (skipn a g)).
Proof.
  intros Hlen. unfold np_setitem_all.
  rewrite length_py_slice, length_data_csr_matrix.
  replace (Nat.min (a + count_nonzero m - a) (length g - a))
    with (count_nonzero m) by lia.
  rewrite Nat.eqb_refl. unfold py_slice.
  now replace (a + count_nonzero m - a) with (count_nonzero m) by lia.
Qed.

(** The two ways a slice assignment can go. *)
Lemma setitem_cases (dst src : list F) :
  (exists d, np_setitem_all dst src = Ok d
             /\ (length src = length dst \/ length src = 1))
  \/ np_setitem_all dst src
     = Raise (ValueError_broadcast (length src) (length dst)).
Proof.
  unfold np_setitem_all.
  destruct (Nat.eqb_spec (length src) (length dst)) as [He|_];
    [left; eexists; split; [reflexivity | now left]|].
  destruct (Nat.eqb_spec (length src) 1) as [He|_];
    [left; eexists; split; [reflexivity | now right] | now right].
Qed.

Lemma slice_of_prefix (g : list F) (a c n : nat) :
  a + c <= n -> firstn c (skipn a (firstn n g)) = firstn c (skipn a g).
Proof.
  intros Hn. rewrite skipn_firstn_comm, firstn_firstn.
  f_equal. lia.
Qed.

(** The controller built from a genome that fills the three groups. *)
Lemma init_fitting (g : list F) (cfg : configuration) (bs : brain_state)
  (vm wm tm : mask) :
  get_masks_from_brain_state bs = Ok (vm, wm, tm) ->
  count_nonzero vm + count_nonzero wm + count_nonzero tm <= length g ->
  __init__ g cfg bs
  = (x0 <- np_zeros (cfg_number_neurons cfg) ;;
     Ok {| config := ContinuousTimeRNNCfg_init cfg;
           V := with_data (csr_matrix vm) (firstn (count_nonzero vm) g);
           W := with_data (csr_matrix wm)
                  (firstn (count_nonzero wm) (skipn (count_nonzero vm) g));
           T := with_data (csr_matrix tm)
                  (firstn (count_nonzero tm)
                     (skipn (count_nonzero vm + count_nonzero wm) g));
           x := x0 |}).
Proof.
  intros Hm Hlen. unfold __init__. rewrite Hm. cbn [bind].
  pose proof (setitem_slice_exact vm g 0) as Hv.
  pose proof (setitem_slice_exact wm g (count_nonzero vm)) as Hw.
  pose proof (setitem_slice_exact tm g (count_nonzero vm + count_nonzero wm))
    as Ht.
  cbn [Nat.add skipn] in Hv.
  rewrite Hv, Hw, Ht by lia. reflexivity.
Qed.

(** C3: for a genome whose length is the sum of the nonzero counts of the
    three masks, construction succeeds and hands the first [v_size] values
    to [V], the next [w_size] to [W] and the last [t_size] to [T]: the three
    value arrays laid end to end are the genome, and in each matrix value
    [k] of its span is stored at the [k]-th true position of its mask in
    row-major order. *)
Theorem init_assigns_genome (g : list F) (cfg : configuration)
  (bs : brain_state) (vm wm tm : mask) :
  get_masks_from_brain_state bs = Ok (vm, wm, tm) ->
  wf_mask vm -> wf_mask wm -> wf_mask tm ->
  length g = count_nonzero vm + count_nonzero wm + count_nonzero tm ->
  (0 <= cfg_number_neurons cfg)%Z ->
  exists c,
    __init__ g cfg bs = Ok c
    /\ data (V c) ++ data (W c) ++ data (T c) = g
    /\ length (data (V c)) = count_nonzero vm
    /\ length (data (W c)) = count_nonzero wm
    /\ length (data (T c)) = count_nonzero tm
    /\ csr_entries (V c)
       = combine (true_positions vm) (firstn (count_nonzero vm) g)
    /\ csr_entries (W c)
       = combine (true_positions wm)
           (firstn (count_nonzero wm) (skipn (count_nonzero vm) g))
    /\ csr_entries (T c)
       = combine (true_positions tm)
           (skipn (count_nonzero vm + count_nonzero wm) g).
Proof.
  intros Hm Hv Hw Ht Hlen Hn.
  rewrite (@init_fitting g cfg bs vm wm tm Hm) by lia.
  rewrite (np_zeros_nonneg Hn). cbn [bind].
  eexists. split; [reflexivity|]. cbn [V W T data with_data].
  assert (Hlast : firstn (count_nonzero tm)
                    (skipn (count_nonzero vm + count_nonzero wm) g)
                  = skipn (count_nonzero vm + count_nonzero wm) g)
    by (apply firstn_all2; rewrite length_skipn; lia).
  rewrite Hlast.
  assert (Hlv : length (firstn (count_nonzero vm) g) = count_nonzero vm)
    by (rewrite length_firstn; lia).
  assert (Hlw : length (firstn (count_nonzero wm) (skipn (count_nonzero vm) g))
                = count_nonzero wm)
    by (rewrite length_firstn, length_skipn; lia).
  assert (Hlt : length (skipn (count_nonzero vm + count_nonzero wm) g)
                = count_nonzero tm)
    by (rewrite length_skipn; lia).
  repeat split; try assumption.
  - rewrite (Nat.add_comm (count_nonzero vm)), <- skipn_skipn.
    now rewrite !firstn_skipn.
  - now apply csr_entries_of_mask.
  - now apply csr_entries_of_mask.
  - now apply csr_entries_of_mask.
Qed.

(** C4, amended: a genome longer than the sum of the nonzero counts is
    accepted, and construction does exactly what it does for the first
    [v_size + w_size + t_size] values; a genome shorter than the sum makes
    construction raise the broadcast error of the slice assignment, unless
    the slice that runs short holds exactly one value and every later group
    is empty. *)
Theorem init_genome_length (g : list F) (cfg : configuration)
  (bs : brain_state) (vm wm tm : mask) :
  get_masks_from_brain_state bs = Ok (vm, wm, tm) ->
  (count_nonzero vm + count_nonzero wm + count_nonzero tm <= length g ->
   __init__ g cfg bs
   = __init__
       (firstn (count_nonzero vm + count_nonzero wm + count_nonzero tm) g)
       cfg bs
   /\ ((0 <= cfg_number_neurons cfg)%Z -> is_ok (__init__ g cfg bs) = true))
  /\ (length g < count_nonzero vm + count_nonzero wm + count_nonzero tm ->
      short_by_broadcast (count_nonzero vm) (count_nonzero wm)
        (count_nonzero tm) (length g) = false ->
      exists src dst,
        __init__ g cfg bs = Raise (ValueError_broadcast src dst)).
Proof.
  intros Hm. split.
  - intros Hlen. split.
    + rewrite (@init_fitting g cfg bs vm wm tm Hm) by lia.
      rewrite (@init_fitting _ cfg bs vm wm tm Hm) by (rewrite length_firstn; lia).
      rewrite firstn_firstn, Nat.min_l by lia.
      rewrite !slice_of_prefix by lia. reflexivity.
    + intros Hn. rewrite (@init_fitting g cfg bs vm wm tm Hm) by lia.
      now rewrite (np_zeros_nonneg Hn).
  - intros Hlen Hshort. unfold __init__. rewrite Hm. cbn [bind].
    destruct (setitem_cases (data (csr_matrix vm))
                (py_slice g 0 (count_nonzero vm)))
      as [(vd & -> & Hv)| ->]; [|now eexists; eexists].
    cbn [bind].
    destruct (setitem_cases (data (csr_matrix wm))
                (py_slice g (count_nonzero vm)
                   (count_nonzero vm + count_nonzero wm)))
      as [(wd & -> & Hw)| ->]; [|now eexists; eexists].
    cbn [bind].
    destruct (setitem_cases (data (csr_matrix tm))
                (py_slice g (count_nonzero vm + count_nonzero wm)
                   (count_nonzero vm + count_nonzero wm + count_nonzero tm)))
      as [(td & -> & Ht)| ->]; [|now eexists; eexists].
    exfalso.
    rewrite length_py_slice, length_data_csr_matrix in Hv, Hw, Ht.
    unfold short_by_broadcast in Hshort.
    destruct (Nat.ltb_spec (length g) (count_nonzero vm));
      [|destruct (Nat.ltb_spec (length g)
                    (count_nonzero vm + count_nonzero wm))].
    + apply andb_false_iff in Hshort.
      rewrite andb_false_iff, !Nat.eqb_neq in Hshort. lia.
    + rewrite andb_false_iff, !Nat.eqb_neq in Hshort. lia.
    + rewrite Nat.eqb_neq in Hshort. lia.
Qed.

(** C5, amended: construction checks nothing in the configuration.  With a
    genome that fills the groups it succeeds for every time step and every
    clipping range, inverted or not, as long as [number_neurons] is not
    negative, and keeps the configuration as given; a negative
    [number_neurons] makes [np.zeros] raise. *)
Theorem init_accepts_configuration (g : list F) (cfg : configuration)
  (bs : brain_state) (vm wm tm : mask) :
  get_masks_from_brain_state bs = Ok (vm, wm, tm) ->
  count_nonzero vm + count_nonzero wm + count_nonzero tm <= length g ->
  ((0 <= cfg_number_neurons cfg)%Z ->
   exists c,
     __init__ g cfg bs = Ok c
     /\ delta_t (config c) = cfg_delta_t cfg
     /\ number_neurons (config c) = cfg_number_neurons cfg
     /\ clipping_range_min (config c)
        = default (cfg_clipping_range_min cfg) one
     /\ clipping_range_max (config c)
        = default (cfg_clipping_range_max cfg) (opp one))
  /\ ((cfg_number_neurons cfg < 0)%Z ->
      __init__ g cfg bs = Raise ValueError_negative_dimensions).
Proof.
  intros Hm Hlen. rewrite (@init_fitting g cfg bs vm wm tm Hm Hlen). split.
  - intros Hn. rewrite (np_zeros_nonneg Hn). cbn [bind].
    eexists. split; [reflexivity|]. cbn. repeat split; reflexivity.
  - intros Hn. now rewrite (np_zeros_negative Hn).
Qed.

End Construction.

Lemma init_assigns_genome_witness :
  exists c,
    __init__ Examples.individual0 Examples.configuration0
      Examples.brain_state0 = Ok c
    /\ data (V c) ++ data (W c) ++ data (T c) = Examples.individual0
    /\ length (data (V c)) = 2
    /\ length (data (W c)) = 3
    /\ length (data (T c)) = 1
    /\ csr_entries (V c) = [(0, 0, 1%Z); (1, 0, 2%Z)]
    /\ csr_entries (W c) = [(0, 0, 3%Z); (1, 0, 4%Z); (1, 1, 5%Z)]
    /\ csr_entries (T c) = [(0, 1, 6%Z)].
Proof.
  apply (@init_assigns_genome Z Z_scalar Examples.individual0
           Examples.configuration0 Examples.brain_state0
           Examples.v_mask0 Examples.w_mask0 Examples.t_mask0).
  - reflexivity.
  - now apply wf_maskb_true.
  - now apply wf_maskb_true.
  - now apply wf_maskb_true.
  - reflexivity.
  - discriminate.
Defined.

(** A genome of eight values for six connections is accepted; the last two
    values are ignored. *)
Lemma init_accepts_long_genome :
  length [1; 2; 3; 4; 5; 6; 7; 8]%Z
  <> count_nonzero Examples.v_mask0 + count_nonzero Examples.w_mask0
     + count_nonzero Examples.t_mask0
  /\ __init__ [1; 2; 3; 4; 5; 6; 7; 8]%Z Examples.configuration0
       Examples.brain_state0
     = Ok Examples.brain0.
Proof. split; [discriminate | reflexivity]. Qed.

(** A genome of five values for six connections. *)
Lemma init_genome_length_witness :
  (6 <= 5 ->
   __init__ [1; 2; 3; 4; 5]%Z Examples.configuration0 Examples.brain_state0
   = __init__ (firstn 6 [1; 2; 3; 4; 5]%Z) Examples.configuration0
       Examples.brain_state0
   /\ ((0 <= 2)%Z ->
       is_ok (__init__ [1; 2; 3; 4; 5]%Z Examples.configuration0
                Examples.brain_state0) = true))
  /\ (5 < 6 ->
      short_by_broadcast 2 3 1 5 = false ->
      exists src dst,
        __init__ [1; 2; 3; 4; 5]%Z Examples.configuration0
          Examples.brain_state0
        = Raise (ValueError_broadcast src dst)).
Proof.
  apply (@init_genome_length Z Z_scalar [1; 2; 3; 4; 5]%Z
           Examples.configuration0 Examples.brain_state0
           Examples.v_mask0 Examples.w_mask0 Examples.t_mask0).
  reflexivity.
Defined.

(** A genome that is too short raises; a single value for a group of two
    with nothing after it is replicated instead. *)
Lemma init_short_genome_examples :
  __init__ [1; 2; 3; 4; 5]%Z Examples.configuration0 Examples.brain_state0
  = Raise (ValueError_broadcast 0 1)
  /\ exists c,
       __init__ [7]%Z Examples.configuration0 Examples.brain_state_v_only
       = Ok c
       /\ data (V c) = [7; 7]%Z.
Proof. split; [reflexivity | eexists; split; reflexivity]. Qed.

(** A zero time step, no neuron and an inverted clipping range are
    accepted, and so is the default clipping range. *)
Lemma init_accepts_degenerate_configuration :
  ((cfg_delta_t Examples.configuration_degenerate <= 0)%Z
   /\ (cfg_number_neurons Examples.configuration_degenerate <= 0)%Z
   /\ cfg_clipping_range_min Examples.configuration_degenerate = Some 1%Z
   /\ cfg_clipping_range_max Examples.configuration_degenerate = Some (-1)%Z
   /\ is_ok (__init__ [] Examples.configuration_degenerate
               Examples.brain_state_empty) = true)
  /\ __init__ Examples.individual0 Examples.configuration_default
       Examples.brain_state0
     = Ok Examples.brain_default.
Proof.
  split; [|reflexivity].
  repeat split; try reflexivity; discriminate.
Qed.

Lemma init_accepts_configuration_witness :
  ((0 <= 0)%Z ->
   exists c,
     __init__ [] Examples.configuration_degenerate Examples.brain_state_empty
     = Ok c
     /\ delta_t (config c) = 0%Z
     /\ number_neurons (config c) = 0%Z
     /\ clipping_range_min (config c) = 1%Z
     /\ clipping_range_max (config c) = (-1)%Z)
  /\ ((0 < 0)%Z ->
      __init__ [] Examples.configuration_degenerate Examples.brain_state_empty
      = Raise ValueError_negative_dimensions).
Proof.
  apply (@init_accepts_configuration Z Z_scalar []
           Examples.configuration_degenerate Examples.brain_state_empty
           {| ncols := 1; rows := [] |} {| ncols := 0; rows := [] |}
           {| ncols := 0; rows := [[]] |}).
  - reflexivity.
  - apply Nat.le_refl.
Defined.

(** ** The step on dense matrices *)

Section Clamp.
Context {F : Type} `{Scalar F}.

Hypothesis ltb_asym : forall a b : F, ltb a b = true -> ltb b a = false.

Lemma ltb_irrefl (a : F) : ltb a a = false.
Proof.
  destruct (ltb a a) eqn:E; [|reflexivity].
  pose proof (ltb_asym _ _ E). congruence.
Qed.

(** On a range whose lower bound is below or equal to the upper bound,
    numpy's minimum of the maximum is the clamp. *)
Lemma clip1_clamp (lo hi v : F) :
  isnan lo = false -> ltb lo hi = true \/ lo = hi ->
  clip1 lo hi v = clamp lo hi v.
Proof.
  intros Hnlo Hrange. unfold clip1, clamp.
  destruct (isnan v) eqn:Hv; [now rewrite Hv|].
  destruct (ltb lo v) eqn:Hlo; [now rewrite Hv|].
  rewrite Hnlo. destruct Hrange as [Hlt| <-].
  - now rewrite Hlt.
  - now destruct (ltb lo lo).
Qed.

Lemma np_clip_clamp (a : list F) (lo hi : F) :
  isnan lo = false -> ltb lo hi = true \/ lo = hi ->
  np_clip a lo hi = map (clamp lo hi) a.
Proof.
  intros Hnlo Hrange. unfold np_clip.
  apply map_ext. intros v. now apply clip1_clamp.
Qed.

Lemma clamp_within (lo hi v : F) :
  isnan lo = false -> isnan hi = false -> ltb lo hi = true \/ lo = hi ->
  isnan v = false -> within lo hi (clamp lo hi v).
Proof.
  intros Hnlo Hnhi Hrange Hv.
  assert (Hhl : ltb hi lo = false).
  { destruct Hrange as [Hlt| <-]; [now apply ltb_asym | apply ltb_irrefl]. }
  unfold clamp, within. rewrite Hv.
  destruct (ltb lo v) eqn:Hlo; [destruct (ltb v hi) eqn:Hhi|].
  - repeat split; [exact Hv | now apply ltb_asym | now apply ltb_asym].
  - repeat split; [exact Hnhi | exact Hhl | apply ltb_irrefl].
  - repeat split; [exact Hnlo | apply ltb_irrefl | exact Hhl].
Qed.

Lemma Forall_map_clamp {A : Type} (f : A -> F) (l : list A) (lo hi : F) :
  isnan lo = false -> isnan hi = false -> ltb lo hi = true \/ lo = hi ->
  Forall (fun v => isnan v = true \/ within lo hi v)
    (map (fun a => clamp lo hi (f a)) l).
Proof.
  intros Hnlo Hnhi Hrange.
  induction l as [|a l IH]; cbn [map]; constructor; [|exact IH].
  destruct (isnan (f a)) eqn:Hv.
  - left. unfold clamp. now rewrite Hv.
  - right. now apply clamp_within.
Qed.

Lemma Forall_clamp_within (l : list F) (lo hi : F) :
  isnan lo = false -> isnan hi = false -> ltb lo hi = true \/ lo = hi ->
  Forall (fun v => isnan v = false) l ->
  Forall (within lo hi) (map (clamp lo hi) l).
Proof.
  intros Hnlo Hnhi Hrange.
  induction 1 as [|v l Hv _ IH]; cbn [map]; constructor; [|exact IH].
  now apply clamp_within.
Qed.

End Clamp.

Section StepFormula.
Context {F : Type} `{Scalar F}.

(** [<] is asymmetric on the scalars. *)
Hypothesis ltb_asym : forall a b : F, ltb a b = true -> ltb b a = false.

(** Zero is neutral on the right of the sum and absorbing on the left of
    the product. *)
Hypothesis add_zero_r : forall a : F, add a zero = a.
Hypothesis mul_zero_l : forall a : F, mul zero a = zero.





Lemma setitem_length (dst src d : list F) :
  np_setitem_all dst src = Ok d -> length d = length dst.
Proof.
  unfold np_setitem_all.
  destruct (Nat.eqb_spec (length src) (length dst)) as [He|_].
  - now intros [= <-].
  - destruct (length src =? 1); [|discriminate].
    intros [= <-]. apply repeat_length.
Qed.


End StepFormula.



(** A reset after a step of the two-neuron example. *)
Lemma reset_zeroes_state_witness :
  snd (reset (fst (step [1]%Z Examples.brain0))) = Ok tt
  /\ x (fst (reset (fst (step [1]%Z Examples.brain0)))) = [0; 0]%Z
  /\ config (fst (reset (fst (step [1]%Z Examples.brain0))))
     = config (fst (step [1]%Z Examples.brain0))
  /\ V (fst (reset (fst (step [1]%Z Examples.brain0))))
     = V (fst (step [1]%Z Examples.brain0))
  /\ W (fst (reset (fst (step [1]%Z Examples.brain0))))
     = W (fst (step [1]%Z Examples.brain0))
  /\ T (fst (reset (fst (step [1]%Z Examples.brain0))))
     = T (fst (step [1]%Z Examples.brain0)).
Proof.
  apply (proj2 (@reset_zeroes_state Z Z_scalar)
           (fst (step [1]%Z Examples.brain0))).
  apply reachable_step.
  apply (reachable_init Examples.individual0 Examples.configuration0
           Examples.brain_state0).
  reflexivity.
Defined.

(** ** Further properties of the step and of the mask generator *)

Section ProperRange.
Context {F : Type} `{Scalar F}.

Hypothesis ltb_asym : forall a b : F, ltb a b = true -> ltb b a = false.

(** X1: with [clipping_range_min] below or equal to [clipping_range_max] and
    neither of them NaN, every component of the hidden state after a step
    that returns is NaN or a number within the range; on consistent shapes
    and an Euler update without NaN the step returns, the new state is the
    clipped Euler update and every component of it is a number within the
    range. *)
Theorem step_state_in_range (c : ContinuousTimeRNN) (u : list F) :
  isnan (clipping_range_min (config c)) = false ->
  isnan (clipping_range_max (config c)) = false ->
  ltb (clipping_range_min (config c)) (clipping_range_max (config c)) = true
  \/ clipping_range_min (config c) = clipping_range_max (config c) ->
  (forall c' y,
      step u c = (c', Ok y) ->
      Forall (fun v =>
                isnan v = true
                \/ within (clipping_range_min (config c))
                     (clipping_range_max (config c)) v)
        (x c'))
  /\ (shape (W c) = (length (x c), length (x c)) ->
      shape (V c) = (length (x c), length u) ->
      snd (shape (T c)) = length (x c) ->
      Forall (fun v => isnan v = false) (euler_update c u) ->
      step u c
      = (with_x c (np_clip (euler_update c u) (clipping_range_min (config c))
                     (clipping_range_max (config c))),
         Ok (np_tanh (csr_matvec (T c)
               (np_clip (euler_update c u) (clipping_range_min (config c))
                  (clipping_range_max (config c))))))
      /\ Forall (within (clipping_range_min (config c))
                   (clipping_range_max (config c)))
           (np_clip (euler_update c u) (clipping_range_min (config c))
              (clipping_range_max (config c)))).
Proof.
  intros Hnlo Hnhi Hrange. split.
  - intros c' y. unfold step, mbind, get_self, lift, set_x, mret.
    destruct (csr_dot (W c) _) as [Wx|e]; [|discriminate].
    destruct (csr_dot (V c) u) as [Vu|e]; [|discriminate].
    destruct (np_add Wx Vu) as [dx|e]; [|discriminate].
    destruct (np_add (x c) _) as [x1|e]; [|discriminate].
    cbn [x config T with_x].
    destruct (csr_dot _ _) as [Tx|e]; [|discriminate].
    intros [= <- _]. cbn [x].
    rewrite (np_clip_clamp _ Hnlo Hrange).
    now apply (Forall_map_clamp ltb_asym (fun v => v)).
  - intros HW HV HT Hnan. split.
    + rewrite (step_euler c u HW HV). unfold csr_dot.
      unfold np_clip at 1.
      rewrite length_map, length_euler_update, HT, Nat.eqb_refl.
      reflexivity.
    + rewrite (np_clip_clamp _ Hnlo Hrange).
      now apply (Forall_clamp_within ltb_asym).
Qed.

End ProperRange.

(** One step of the two-neuron example, whose range is [-5, 5]. *)
Lemma step_state_in_range_witness :
  step [1]%Z Examples.brain0
  = (with_x Examples.brain0 [2; 4]%Z, Ok [1]%Z)
  /\ Forall (within (-5)%Z 5%Z) [2; 4]%Z.
Proof.
  refine (proj2 (@step_state_in_range Z Z_scalar Z_ltb_asym Examples.brain0
                   [1]%Z eq_refl eq_refl (or_introl eq_refl))
            eq_refl eq_refl eq_refl _).
  repeat constructor.
Defined.

Section LateFailure.
Context {F : Type} `{Scalar F}.

(** X2: when the two products of the differential equation fit and the column
    count of [T] is not the length of the hidden state, the step raises in
    the output product, and the hidden state it leaves is the clipped Euler
    update, not the state before the call. *)
Theorem step_output_mismatch_keeps_update (c : ContinuousTimeRNN)
  (u : list F) :
  shape (W c) = (length (x c), length (x c)) ->
  shape (V c) = (length (x c), length u) ->
  snd (shape (T c)) <> length (x c) ->
  step u c
  = (with_x c (np_clip (euler_update c u) (clipping_range_min (config c))
                 (clipping_range_max (config c))),
     Raise ValueError_dimension_mismatch).
Proof.
  intros HW HV HT.
  rewrite (step_euler c u HW HV). unfold csr_dot, np_clip.
  rewrite length_map, length_euler_update.
  apply Nat.eqb_neq in HT. rewrite Nat.eqb_sym, HT. reflexivity.
Qed.

End LateFailure.

Section MaskGeneratorDraw.
Context {F : Type} `{Scalar F}.

(** X3: whatever the type and the diagonal flag, the mask returned is the
    comparison of the last draw with the density: for ["dense"] the first
    [n * m] values of the source, for ["random"] the [n * m] values after
    those of the mask that was built and dropped.  Neither the all-true mask
    nor the diagonal survives. *)
Theorem generate_mask_is_last_draw (n m : nat) (d : F) (keep : bool)
  (g : rng) :
  (keep = true -> n = m) ->
  snd (_generate_mask "dense" n m d keep g)
  = Ok (np_less m (snd (np_random_rand n m g)) d)
  /\ snd (_generate_mask "random" n m d keep g)
     = Ok (np_less m
             (snd (np_random_rand n m (fst (np_random_rand n m g)))) d).
Proof.
  intros Hkeep. unfold _generate_mask.
  cbn [String.eqb Ascii.eqb Bool.eqb andb].
  assert (Hnm : (if keep then n =? m else true) = true).
  { destruct keep; [|reflexivity].
    rewrite (Hkeep eq_refl). apply Nat.eqb_refl. }
  split.
  - destruct keep; [rewrite Hnm|]; reflexivity.
  - destruct keep; [rewrite Hnm|]; reflexivity.
Qed.

End MaskGeneratorDraw.

(** With the diagonal requested and density 0, the diagonal is false. *)
Lemma generate_mask_is_last_draw_witness :
  snd (_generate_mask "dense" 2 2 0%Z true Examples.rng0)
  = Ok {| ncols := 2; rows := [[false; false]; [false; false]] |}
  /\ snd (_generate_mask "random" 2 2 0%Z true Examples.rng0)
     = Ok {| ncols := 2; rows := [[false; false]; [false; false]] |}.
Proof.
  apply (@generate_mask_is_last_draw Z Z_scalar 2 2 0%Z true Examples.rng0).
  reflexivity.
Defined.

(** The step of a controller whose output matrix does not fit: it raises,
    and the hidden state is no longer the zero vector. *)
Lemma step_output_mismatch_keeps_update_witness :
  step [1]%Z Examples.brain_wide_T
  = (with_x Examples.brain_wide_T [2; 4]%Z,
     Raise ValueError_dimension_mismatch).
Proof.
  apply (@step_output_mismatch_keeps_update Z Z_scalar
           Examples.brain_wide_T [1]%Z).
  - reflexivity.
  - reflexivity.
  - discriminate.
Defined.

(** ** Invariants of the step and of the reset *)

Section StepInvariants.
Context {F : Type} `{Scalar F}.

Lemma with_x_with_x (c : ContinuousTimeRNN) (xs ys : list F) :
  with_x (with_x c xs) ys = with_x c ys.
Proof. reflexivity. Qed.

Lemma with_x_same (c : ContinuousTimeRNN (F := F)) : with_x c (x c) = c.
Proof. destruct c; reflexivity. Qed.

(** On shapes that fit, a step goes through all of its stages. *)
Lemma step_on_shapes (c : ContinuousTimeRNN) (u : list F) :
  shape (W c) = (length (x c), length (x c)) ->
  shape (V c) = (length (x c), length u) ->
  snd (shape (T c)) = length (x c) ->
  exists x1,
    length x1 = length (x c)
    /\ step u c
       = (with_x c (np_clip x1 (clipping_range_min (config c))
                      (clipping_range_max (config c))),
          Ok (np_tanh
                (csr_matvec (T c)
                   (np_clip x1 (clipping_range_min (config c))
                      (clipping_range_max (config c)))))).
Proof.
  intros HW HV HT.
  unfold step, mbind, get_self, lift, set_x, mret.
  unfold csr_dot at 1. unfold np_tanh at 1.
  rewrite length_map, HW. cbn [snd]. rewrite Nat.eqb_refl.
  unfold csr_dot at 1. rewrite HV. cbn [snd]. rewrite Nat.eqb_refl.
  rewrite np_add_same_length
    by (rewrite !csr_matvec_length, HW, HV; reflexivity).
  rewrite np_add_same_length.
  2:{ unfold np_scale.
      rewrite !length_map, length_combine, !csr_matvec_length, HW, HV.
      cbn [fst]. now rewrite Nat.min_id. }
  cbn [x config T with_x].
  match goal with
  | |- context [np_clip ?l _ _] =>
      exists l; assert (Hlen : length l = length (x c))
  end.
  { unfold np_scale, np_tanh.
    rewrite !length_map, !length_combine, !length_map, length_combine,
      !csr_matvec_length, HW, HV.
    cbn [fst]. now rewrite !Nat.min_id. }
  split; [exact Hlen|].
  unfold csr_dot, np_clip. rewrite length_map, Hlen, HT, Nat.eqb_refl.
  reflexivity.
Qed.

(** X4: when [W] is square of the size of the hidden state, [V] has as many
    rows and one column per input component, and [T] has one column per
    neuron, a step returns: the new hidden state has the length of the old
    one, the output has one component per row of [T], and the matrices and
    the configuration are the same, so the next step finds the same
    shapes. *)
Theorem step_keeps_shapes (c : ContinuousTimeRNN) (u : list F) :
  shape (W c) = (length (x c), length (x c)) ->
  shape (V c) = (length (x c), length u) ->
  snd (shape (T c)) = length (x c) ->
  exists xs y,
    step u c = (with_x c xs, Ok y)
    /\ length xs = length (x c)
    /\ length y = fst (shape (T c))
    /\ shape (W (with_x c xs)) = (length xs, length xs)
    /\ shape (V (with_x c xs)) = (length xs, length u)
    /\ snd (shape (T (with_x c xs))) = length xs.
Proof.
  intros HW HV HT.
  destruct (step_on_shapes c u HW HV HT) as (x1 & Hlen & Hstep).
  eexists. eexists. split; [exact Hstep|].
  assert (Hclip : length (np_clip x1 (clipping_range_min (config c))
                            (clipping_range_max (config c)))
                  = length (x c))
    by (unfold np_clip; now rewrite length_map).
  cbn [W V T with_x]. rewrite Hclip.
  repeat split; try assumption.
  unfold np_tanh. now rewrite length_map, csr_matvec_length.
Qed.

(** X5: whether it returns or raises, a step leaves the configuration and
    the three matrices of the controller as they were, and when it raises
    with the hidden state changed, the error is the dimension mismatch of
    the output product. *)
Theorem step_changes_only_x (c : ContinuousTimeRNN) (u : list F) :
  config (fst (step u c)) = config c
  /\ V (fst (step u c)) = V c
  /\ W (fst (step u c)) = W c
  /\ T (fst (step u c)) = T c
  /\ (forall e, snd (step u c) = Raise e ->
                x (fst (step u c)) = x c
                \/ (e = ValueError_dimension_mismatch
                    /\ length (x (fst (step u c))) <> snd (shape (T c)))).
Proof.
  destruct (step_frame u c) as [xs Hxs]. rewrite Hxs.
  repeat split.
  rewrite <- Hxs. clear xs Hxs.
  unfold step, mbind, get_self, lift, set_x, mret.
  destruct (csr_dot (W c) _) as [Wx|e1]; [|now left].
  destruct (csr_dot (V c) u) as [Vu|e1]; [|now left].
  destruct (np_add Wx Vu) as [dx|e1]; [|now left].
  destruct (np_add (x c) _) as [x1|e1]; [|now left].
  cbn [x config T with_x]. unfold csr_dot.
  destruct (Nat.eqb_spec (length (np_clip x1 (clipping_range_min (config c))
                                    (clipping_range_max (config c))))
              (snd (shape (T c)))) as [He|Hne].
  - intros e [=].
  - intros e [= <-]. right. cbn [fst x]. now split.
Qed.

Lemma reachable_from_frame (c0 c : ContinuousTimeRNN) :
  reachable_from c0 c -> exists xs, c = with_x c0 xs.
Proof.
  induction 1 as [| c u _ [xs ->] | c _ [xs ->]].
  - exists (x c0). symmetry. apply with_x_same.
  - destruct (step_frame u (with_x c0 xs)) as [ys ->]. now exists ys.
  - destruct (reset_frame (with_x c0 xs)) as [ys ->]. now exists ys.
Qed.

(** X6: from a controller that the constructor returned, whatever steps
    and resets have been made since, whether they returned or raised, a
    reset does not fail and leaves exactly the controller that the
    constructor returned. *)
Theorem reset_restores_constructed (g : list F) (cfg : configuration)
  (bs : brain_state) (c0 c : ContinuousTimeRNN) :
  __init__ g cfg bs = Ok c0 ->
  reachable_from c0 c ->
  reset c = (c0, Ok tt).
Proof.
  intros Hc0 Hc. apply reachable_from_frame in Hc. destruct Hc as [xs ->].
  apply init_ok in Hc0.
  destruct Hc0 as (vm & wm & tm & vd & wd & td & _ & _ & _ & _ & Hn & ->).
  unfold reset, mbind, get_self, lift, set_x.
  cbn [config with_x number_neurons ContinuousTimeRNNCfg_init].
  rewrite (np_zeros_nonneg Hn). reflexivity.
Qed.

(** X7: the constructor does not compare [number_neurons] with the masks.
    When the column count of the mask of [W] is not [number_neurons], the
    controller is built, but none of its steps can ever be made: every step
    raises the dimension mismatch of the first product and the controller
    stays the one that was built. *)
Theorem step_after_neuron_mismatch (g : list F) (cfg : configuration)
  (bs : brain_state) (vm wm tm : mask) (c0 c : ContinuousTimeRNN) :
  get_masks_from_brain_state bs = Ok (vm, wm, tm) ->
  __init__ g cfg bs = Ok c0 ->
  ncols wm <> Z.to_nat (cfg_number_neurons cfg) ->
  reachable_from c0 c ->
  c = c0
  /\ forall u, step u c = (c, Raise ValueError_dimension_mismatch).
Proof.
  intros Hm Hc0 Hne Hc.
  apply init_ok in Hc0.
  destruct Hc0 as (vm' & wm' & tm' & vd & wd & td & Hm' & _ & _ & _ & Hn & Hc0).
  rewrite Hm in Hm'. injection Hm' as <- <- <-.
  assert (Hstep : forall u,
             step u c0 = (c0, Raise ValueError_dimension_mismatch)).
  { intros u. subst c0. unfold step, mbind, get_self, lift.
    unfold csr_dot at 1. cbn [x W shape with_data csr_matrix snd].
    unfold np_tanh. rewrite length_map, repeat_length.
    destruct (Nat.eqb_spec (Z.to_nat (cfg_number_neurons cfg)) (ncols wm))
      as [He|_]; [now rewrite He in Hne | reflexivity]. }
  assert (Hreset : reset c0 = (c0, Ok tt)).
  { subst c0. unfold reset, mbind, get_self, lift, set_x.
    cbn [config with_x number_neurons ContinuousTimeRNNCfg_init].
    rewrite (np_zeros_nonneg Hn). reflexivity. }
  assert (Heq : c = c0).
  { induction Hc as [| c u _ IH | c _ IH].
    - reflexivity.
    - rewrite IH, Hstep. reflexivity.
    - rewrite IH, Hreset. reflexivity. }
  split; [exact Heq|]. rewrite Heq. exact Hstep.
Qed.

End StepInvariants.

Lemma step_keeps_shapes_witness :
  exists xs y,
    step [1]%Z Examples.brain0 = (with_x Examples.brain0 xs, Ok y)
    /\ length xs = 2
    /\ length y = 1
    /\ shape (W (with_x Examples.brain0 xs)) = (length xs, length xs)
    /\ shape (V (with_x Examples.brain0 xs)) = (length xs, 1)
    /\ snd (shape (T (with_x Examples.brain0 xs))) = length xs.
Proof.
  apply (@step_keeps_shapes Z Z_scalar Examples.brain0 [1]%Z);
    reflexivity.
Defined.

(** A reset after two steps and a failed step of the example. *)
Lemma reset_restores_constructed_witness :
  reset (fst (step [1; 2]%Z
                (fst (step [3]%Z (fst (step [1]%Z Examples.brain0))))))
  = (Examples.brain0, Ok tt).
Proof.
  apply (@reset_restores_constructed Z Z_scalar Examples.individual0
           Examples.configuration0 Examples.brain_state0).
  - reflexivity.
  - repeat apply from_step. apply from_start.
Defined.

Lemma step_after_neuron_mismatch_witness :
  fst (reset (fst (step [1]%Z Examples.brain_three))) = Examples.brain_three
  /\ forall u,
       step u (fst (reset (fst (step [1]%Z Examples.brain_three))))
       = (fst (reset (fst (step [1]%Z Examples.brain_three))),
          Raise ValueError_dimension_mismatch).
Proof.
  apply (@step_after_neuron_mismatch Z Z_scalar Examples.individual0
           Examples.configuration_three Examples.brain_state0
           Examples.v_mask0 Examples.w_mask0 Examples.t_mask0
           Examples.brain_three).
  - reflexivity.
  - reflexivity.
  - discriminate.
  - apply from_reset. apply from_step. apply from_start.
Defined.

(** ** Generated masks and brain states *)

Lemma count_row_le_length (r : list bool) : count_row r <= length r.
Proof. induction r as [|[] r IH]; simpl; lia. Qed.

Lemma count_nonzero_le_area (m : mask) :
  wf_mask m -> count_nonzero m <= nrows m * ncols m.
Proof.
  unfold wf_mask, count_nonzero, nrows.
  induction 1 as [|r rs Hr _ IH]; [reflexivity|].
  cbn [map length]. change (list_sum (count_row r :: map count_row rs))
    with (count_row r + list_sum (map count_row rs)).
  pose proof (count_row_le_length r). rewrite Hr in *. simpl. lia.
Qed.

Lemma count_row_map_le {A : Type} (f1 f2 : A -> bool) (r : list A) :
  (forall a, f1 a = true -> f2 a = true) ->
  count_row (map f1 r) <= count_row (map f2 r).
Proof.
  intros Hf. induction r as [|a r IH]; [reflexivity|].
  cbn [map count_row]. specialize (Hf a).
  destruct (f1 a) eqn:E1.
  - rewrite (Hf eq_refl). lia.
  - destruct (f2 a); lia.
Qed.

Lemma count_rows_map_le {A : Type} (f1 f2 : A -> bool) (a : list (list A)) :
  (forall v, f1 v = true -> f2 v = true) ->
  list_sum (map count_row (map (map f1) a))
  <= list_sum (map count_row (map (map f2) a)).
Proof.
  intros Hf. induction a as [|r a IH]; [reflexivity|].
  cbn [map].
  change (count_row (map f1 r) + list_sum (map count_row (map (map f1) a))
          <= count_row (map f2 r)
             + list_sum (map count_row (map (map f2) a))).
  pose proof (count_row_map_le f1 f2 r Hf). lia.
Qed.

Lemma nth_map_map_implies {A : Type} (f1 f2 : A -> bool) (a : list (list A))
  (i j : nat) :
  (forall v, f1 v = true -> f2 v = true) ->
  nth j (nth i (map (map f1) a) []) false = true ->
  nth j (nth i (map (map f2) a) []) false = true.
Proof.
  intros Hf.
  assert (Hrow : forall (r : list A) (k : nat),
             nth k (map f1 r) false = true -> nth k (map f2 r) false = true).
  { induction r as [|v r IH]; intros [|k]; simpl; try discriminate.
    - apply Hf.
    - apply IH. }
  revert i. induction a as [|r a IH]; intros [|i]; simpl.
  - destruct j; discriminate.
  - destruct j; discriminate.
  - apply Hrow.
  - apply IH.
Qed.

Section GeneratedMasks.
Context {F : Type} `{Scalar F}.

(** The three ways [_generate_mask] can go. *)
Lemma generate_mask_cases (mask_type : string) (n m : nat) (d : F)
  (keep : bool) (g : rng) :
  _generate_mask mask_type n m d keep g
  = if known_mask_type mask_type then
      if keep && negb (n =? m) then
        (last_source mask_type n m g, Raise AssertionError)
      else
        (fst (np_random_rand n m (last_source mask_type n m g)),
         Ok (np_less m
               (snd (np_random_rand n m (last_source mask_type n m g))) d))
    else (g, Raise (RuntimeError ("Unknown mask_type: " ++ mask_type))).
Proof.
  unfold _generate_mask, known_mask_type, last_source, np_random_rand.
  destruct (String.eqb mask_type "random"),
    (String.eqb mask_type "dense"), keep, (n =? m); reflexivity.
Qed.

Lemma drawn_mask_shape (n m : nat) (g : rng) (d : F) :
  wf_mask (np_less m (snd (np_random_rand n m g)) d)
  /\ mask_shape (np_less m (snd (np_random_rand n m g)) d) = (n, m).
Proof.
  unfold wf_mask, mask_shape, nrows, np_less, np_random_rand.
  cbn [snd rows ncols]. split.
  - rewrite map_map. apply Forall_forall. intros r Hr.
    apply in_map_iff in Hr. destruct Hr as (i & <- & _).
    now rewrite !length_map, length_seq.
  - now rewrite !length_map, length_seq.
Qed.

Lemma generate_mask_int_nonneg (mask_type : string) (n m : Z) (d : F)
  (keep : bool) (g : rng) :
  (0 <= n)%Z -> (0 <= m)%Z ->
  _generate_mask_int mask_type n m d keep g
  = _generate_mask mask_type (Z.to_nat n) (Z.to_nat m) d keep g.
Proof.
  intros Hn Hm. unfold _generate_mask_int.
  apply Z.ltb_ge in Hn, Hm. now rewrite Hn, Hm.
Qed.

(** A brain state generated from mask types that are known and dimensions
    that are not negative. *)
Lemma generate_brain_state_ok (number_inputs number_outputs : Z)
  (cfg : configuration) (g : rng) :
  (0 <= cfg_number_neurons cfg)%Z ->
  (0 <= number_inputs)%Z -> (0 <= number_outputs)%Z ->
  known_mask_type (v_mask (ContinuousTimeRNNCfg_init cfg)) = true ->
  known_mask_type (w_mask (ContinuousTimeRNNCfg_init cfg)) = true ->
  known_mask_type (t_mask (ContinuousTimeRNNCfg_init cfg)) = true ->
  exists g' vm wm tm,
    generate_brain_state number_inputs number_outputs cfg g
    = (g', Ok (get_brain_state_from_masks vm wm tm))
    /\ wf_mask vm /\ wf_mask wm /\ wf_mask tm
    /\ mask_shape vm
       = (Z.to_nat (cfg_number_neurons cfg), Z.to_nat number_inputs)
    /\ mask_shape wm
       = (Z.to_nat (cfg_number_neurons cfg), Z.to_nat (cfg_number_neurons cfg))
    /\ mask_shape tm
       = (Z.to_nat number_outputs, Z.to_nat (cfg_number_neurons cfg)).
Proof.
  intros Hn Hi Ho Hv Hw Ht. unfold generate_brain_state.
  cbn [number_neurons ContinuousTimeRNNCfg_init] in *.
  rewrite generate_mask_int_nonneg by assumption.
  rewrite generate_mask_cases, Hv. cbn [andb].
  rewrite generate_mask_int_nonneg by assumption.
  rewrite generate_mask_cases, Hw, Nat.eqb_refl. cbn [andb negb].
  rewrite generate_mask_int_nonneg by assumption.
  rewrite generate_mask_cases, Ht. cbn [andb].
  do 4 eexists. split; [reflexivity|].
  repeat split; apply drawn_mask_shape.
Qed.

(** X8: with the three mask types known and no negative dimension,
    [generate_brain_state] returns a brain state of three rectangular masks
    of the shapes neurons x inputs, neurons x neurons and outputs x neurons,
    and the individual size of that brain state is at most the number of
    entries of the three masks. *)
Theorem generate_brain_state_shapes (number_inputs number_outputs : Z)
  (cfg : configuration) (g : rng) :
  (0 <= cfg_number_neurons cfg)%Z ->
  (0 <= number_inputs)%Z -> (0 <= number_outputs)%Z ->
  known_mask_type (v_mask (ContinuousTimeRNNCfg_init cfg)) = true ->
  known_mask_type (w_mask (ContinuousTimeRNNCfg_init cfg)) = true ->
  known_mask_type (t_mask (ContinuousTimeRNNCfg_init cfg)) = true ->
  exists bs vm wm tm size,
    snd (generate_brain_state number_inputs number_outputs cfg g) = Ok bs
    /\ get_masks_from_brain_state bs = Ok (vm, wm, tm)
    /\ wf_mask vm /\ wf_mask wm /\ wf_mask tm
    /\ mask_shape vm
       = (Z.to_nat (cfg_number_neurons cfg), Z.to_nat number_inputs)
    /\ mask_shape wm
       = (Z.to_nat (cfg_number_neurons cfg), Z.to_nat (cfg_number_neurons cfg))
    /\ mask_shape tm
       = (Z.to_nat number_outputs, Z.to_nat (cfg_number_neurons cfg))
    /\ get_individual_size bs = Ok size
    /\ size
       <= Z.to_nat (cfg_number_neurons cfg)
          * (Z.to_nat number_inputs + Z.to_nat (cfg_number_neurons cfg)
             + Z.to_nat number_outputs).
Proof.
  intros Hn Hi Ho Hv Hw Ht.
  destruct (@generate_brain_state_ok number_inputs number_outputs cfg g
              Hn Hi Ho Hv Hw Ht)
    as (g' & vm & wm & tm & Hgen & Hwv & Hww & Hwt & Hsv & Hsw & Hst).
  exists (get_brain_state_from_masks vm wm tm), vm, wm, tm.
  exists (count_nonzero vm + count_nonzero wm + count_nonzero tm).
  rewrite Hgen. cbn [snd].
  do 8 (split; [assumption || reflexivity|]).
  split.
  - unfold get_individual_size, get_free_parameter_usage.
    rewrite get_masks_of_masks. cbn [bind dict_values map snd fold_left].
    reflexivity.
  - pose proof (count_nonzero_le_area Hwv) as Hv'.
    pose proof (count_nonzero_le_area Hww) as Hw'.
    pose proof (count_nonzero_le_area Hwt) as Ht'.
    unfold mask_shape in Hsv, Hsw, Hst.
    injection Hsv as Hvr Hvc. injection Hsw as Hwr Hwc.
    injection Hst as Htr Htc.
    rewrite Hvr, Hvc in Hv'. rewrite Hwr, Hwc in Hw'.
    rewrite Htr, Htc in Ht'. nia.
Qed.

(** X9: a brain state from [generate_brain_state], a genome of the
    individual size of that brain state and the same configuration make a
    controller that runs: the constructor returns, and with the hidden state
    at any vector of [number_neurons] components every step on
    [number_inputs] input components returns [number_outputs] output
    components and a hidden state of [number_neurons] components. *)
Theorem generated_brain_state_runs (number_inputs number_outputs : Z)
  (cfg : configuration) (g : rng) :
  (0 <= cfg_number_neurons cfg)%Z ->
  (0 <= number_inputs)%Z -> (0 <= number_outputs)%Z ->
  known_mask_type (v_mask (ContinuousTimeRNNCfg_init cfg)) = true ->
  known_mask_type (w_mask (ContinuousTimeRNNCfg_init cfg)) = true ->
  known_mask_type (t_mask (ContinuousTimeRNNCfg_init cfg)) = true ->
  exists bs size,
    snd (generate_brain_state number_inputs number_outputs cfg g) = Ok bs
    /\ get_individual_size bs = Ok size
    /\ forall individual : list F,
         length individual = size ->
         exists c,
           __init__ individual cfg bs = Ok c
           /\ forall (xs u : list F),
                length xs = Z.to_nat (cfg_number_neurons cfg) ->
                length u = Z.to_nat number_inputs ->
                exists xs' y,
                  step u (with_x c xs) = (with_x c xs', Ok y)
                  /\ length xs' = Z.to_nat (cfg_number_neurons cfg)
                  /\ length y = Z.to_nat number_outputs.
Proof.
  intros Hn Hi Ho Hv Hw Ht.
  destruct (@generate_brain_state_ok number_inputs number_outputs cfg g
              Hn Hi Ho Hv Hw Ht)
    as (g' & vm & wm & tm & Hgen & Hwv & Hww & Hwt & Hsv & Hsw & Hst).
  exists (get_brain_state_from_masks vm wm tm).
  eexists. rewrite Hgen. cbn [snd]. split; [reflexivity|]. split.
  { unfold get_individual_size, get_free_parameter_usage.
    rewrite get_masks_of_masks. cbn [bind dict_values map snd fold_left].
    reflexivity. }
  intros individual Hlen.
  rewrite (@init_fitting F _ individual cfg _ vm wm tm
             (get_masks_of_masks vm wm tm)) by lia.
  rewrite (np_zeros_nonneg Hn). cbn [bind].
  eexists. split; [reflexivity|].
  intros xs u Hxs Hu.
  unfold mask_shape in Hsv, Hsw, Hst.
  injection Hsv as Hvr Hvc. injection Hsw as Hwr Hwc.
  injection Hst as Htr Htc.
  match goal with
  | |- context [step u (with_x ?c xs)] =>
      destruct (step_on_shapes (with_x c xs) u) as (x1 & Hx1 & Hstep)
  end.
  - cbn [W x with_x shape with_data csr_matrix]. now rewrite Hwr, Hwc, Hxs.
  - cbn [V x with_x shape with_data csr_matrix]. now rewrite Hvr, Hvc, Hxs, Hu.
  - cbn [T x with_x shape with_data csr_matrix snd]. now rewrite Htc, Hxs.
  - rewrite Hstep. rewrite with_x_with_x.
    eexists. eexists. split; [reflexivity|].
    cbn [x with_x T shape with_data csr_matrix config] in *.
    unfold np_clip, np_tanh.
    rewrite !length_map, csr_matvec_length. cbn [shape with_data fst].
    split; [now rewrite Hx1 | exact Htr].
Qed.

End GeneratedMasks.

Lemma generate_brain_state_shapes_witness :
  exists bs vm wm tm size,
    snd (generate_brain_state 1 1 Examples.configuration0 Examples.rng0)
    = Ok bs
    /\ get_masks_from_brain_state bs = Ok (vm, wm, tm)
    /\ wf_mask vm /\ wf_mask wm /\ wf_mask tm
    /\ mask_shape vm = (2, 1)
    /\ mask_shape wm = (2, 2)
    /\ mask_shape tm = (1, 2)
    /\ get_individual_size bs = Ok size
    /\ size <= 2 * (1 + 2 + 1).
Proof.
  apply (@generate_brain_state_shapes Z Z_scalar 1%Z 1%Z
           Examples.configuration0 Examples.rng0);
    (reflexivity || discriminate).
Defined.

Lemma generated_brain_state_runs_witness :
  exists bs size,
    snd (generate_brain_state 1 1 Examples.configuration0 Examples.rng0)
    = Ok bs
    /\ get_individual_size bs = Ok size
    /\ forall individual : list Z,
         length individual = size ->
         exists c,
           __init__ individual Examples.configuration0 bs = Ok c
           /\ forall (xs u : list Z),
                length xs = 2 ->
                length u = 1 ->
                exists xs' y,
                  step u (with_x c xs) = (with_x c xs', Ok y)
                  /\ length xs' = 2
                  /\ length y = 1.
Proof.
  apply (@generated_brain_state_runs Z Z_scalar 1%Z 1%Z
           Examples.configuration0 Examples.rng0);
    (reflexivity || discriminate).
Defined.

Section GeneratorErrors.
Context {F : Type} `{Scalar F}.

Lemma generate_mask_int_errors (mask_type : string) (n m : Z) (d : F)
  (keep : bool) (g g' : rng) (e : exn) :
  (keep = true -> n = m) ->
  _generate_mask_int mask_type n m d keep g = (g', Raise e) ->
  e = ValueError_negative_dimensions
  \/ e = RuntimeError ("Unknown mask_type: " ++ mask_type).
Proof.
  intros Hkeep. unfold _generate_mask_int.
  destruct (((n <? 0)%Z || (m <? 0)%Z) && known_mask_type mask_type).
  - intros [= _ <-]. now left.
  - rewrite generate_mask_cases.
    destruct (known_mask_type mask_type); [|intros [= _ <-]; now right].
    destruct keep; cbn [andb].
    + rewrite (Hkeep eq_refl), Nat.eqb_refl. cbn [negb]. discriminate.
    + discriminate.
Qed.

(** X10: [generate_brain_state] reports an unknown mask type with a
    [RuntimeError] that names it, the type of [V] before that of [W] and
    that of [W] before that of [T]; an unknown type of [V] is reported
    before any random value is drawn.  Whatever the arguments, the only
    errors it raises are this one and the one for a negative dimension: the
    assertion on the square mask of [W] cannot fail. *)
Theorem generate_brain_state_errors (number_inputs number_outputs : Z)
  (cfg : configuration) (g : rng) :
  (known_mask_type (v_mask (ContinuousTimeRNNCfg_init cfg)) = false ->
   generate_brain_state number_inputs number_outputs cfg g
   = (g, Raise (RuntimeError
                  ("Unknown mask_type: "
                   ++ v_mask (ContinuousTimeRNNCfg_init cfg)))))
  /\ ((0 <= cfg_number_neurons cfg)%Z -> (0 <= number_inputs)%Z ->
      known_mask_type (v_mask (ContinuousTimeRNNCfg_init cfg)) = true ->
      known_mask_type (w_mask (ContinuousTimeRNNCfg_init cfg)) = false ->
      snd (generate_brain_state number_inputs number_outputs cfg g)
      = Raise (RuntimeError
                 ("Unknown mask_type: "
                  ++ w_mask (ContinuousTimeRNNCfg_init cfg))))
  /\ ((0 <= cfg_number_neurons cfg)%Z -> (0 <= number_inputs)%Z ->
      known_mask_type (v_mask (ContinuousTimeRNNCfg_init cfg)) = true ->
      known_mask_type (w_mask (ContinuousTimeRNNCfg_init cfg)) = true ->
      known_mask_type (t_mask (ContinuousTimeRNNCfg_init cfg)) = false ->
      snd (generate_brain_state number_inputs number_outputs cfg g)
      = Raise (RuntimeError
                 ("Unknown mask_type: "
                  ++ t_mask (ContinuousTimeRNNCfg_init cfg))))
  /\ (forall e,
         snd (generate_brain_state number_inputs number_outputs cfg g)
         = Raise e ->
         e = ValueError_negative_dimensions
         \/ exists mask_type,
              e = RuntimeError ("Unknown mask_type: " ++ mask_type)).
Proof.
  unfold generate_brain_state.
  cbn [number_neurons ContinuousTimeRNNCfg_init].
  split; [|split; [|split]].
  - intros Hv. unfold _generate_mask_int at 1.
    rewrite Hv, andb_false_r, generate_mask_cases, Hv. reflexivity.
  - intros Hn Hi Hv Hw.
    rewrite generate_mask_int_nonneg by assumption.
    rewrite generate_mask_cases, Hv. cbn [andb].
    unfold _generate_mask_int at 1.
    rewrite Hw, andb_false_r, generate_mask_cases, Hw. reflexivity.
  - intros Hn Hi Hv Hw Ht.
    rewrite generate_mask_int_nonneg by assumption.
    rewrite generate_mask_cases, Hv. cbn [andb].
    rewrite generate_mask_int_nonneg by assumption.
    rewrite generate_mask_cases, Hw, Nat.eqb_refl. cbn [andb negb].
    unfold _generate_mask_int at 1.
    rewrite Ht, andb_false_r, generate_mask_cases, Ht. reflexivity.
  - intros e.
    destruct (_generate_mask_int _ _ number_inputs _ false g)
      as [g1 [vm|e1]] eqn:E1.
    2:{ intros [= <-].
        apply generate_mask_int_errors in E1; [|discriminate].
        destruct E1 as [->| ->]; [now left | right; now eexists]. }
    destruct (_generate_mask_int _ _ _ _ true g1) as [g2 [wm|e2]] eqn:E2.
    2:{ intros [= <-].
        apply generate_mask_int_errors in E2; [|reflexivity].
        destruct E2 as [->| ->]; [now left | right; now eexists]. }
    destruct (_generate_mask_int _ number_outputs _ _ false g2)
      as [g3 [tm|e3]] eqn:E3.
    + discriminate.
    + intros [= <-].
      apply generate_mask_int_errors in E3; [|discriminate].
      destruct E3 as [->| ->]; [now left | right; now eexists].
Qed.

(** X11: with the three mask types known and no negative dimension,
    [generate_brain_state] takes from the random source exactly the values
    of its three calls of [_generate_mask], one draw of the size of the mask
    for a type ["dense"] and two for a type ["random"]: the source it leaves
    is the one it was given, that many values further on. *)
Theorem generate_brain_state_draws (number_inputs number_outputs : Z)
  (cfg : configuration) (g : rng) (k : nat) :
  (0 <= cfg_number_neurons cfg)%Z ->
  (0 <= number_inputs)%Z -> (0 <= number_outputs)%Z ->
  known_mask_type (v_mask (ContinuousTimeRNNCfg_init cfg)) = true ->
  known_mask_type (w_mask (ContinuousTimeRNNCfg_init cfg)) = true ->
  known_mask_type (t_mask (ContinuousTimeRNNCfg_init cfg)) = true ->
  fst (generate_brain_state number_inputs number_outputs cfg g) k
  = g (draws_of (v_mask (ContinuousTimeRNNCfg_init cfg))
         (Z.to_nat (cfg_number_neurons cfg)) (Z.to_nat number_inputs)
       + draws_of (w_mask (ContinuousTimeRNNCfg_init cfg))
           (Z.to_nat (cfg_number_neurons cfg))
           (Z.to_nat (cfg_number_neurons cfg))
       + draws_of (t_mask (ContinuousTimeRNNCfg_init cfg))
           (Z.to_nat number_outputs) (Z.to_nat (cfg_number_neurons cfg))
       + k).
Proof.
  intros Hn Hi Ho Hv Hw Ht. unfold generate_brain_state.
  cbn [number_neurons ContinuousTimeRNNCfg_init] in *.
  rewrite generate_mask_int_nonneg by assumption.
  rewrite generate_mask_cases, Hv. cbn [andb].
  rewrite generate_mask_int_nonneg by assumption.
  rewrite generate_mask_cases, Hw, Nat.eqb_refl. cbn [andb negb].
  rewrite generate_mask_int_nonneg by assumption.
  rewrite generate_mask_cases, Ht. cbn [andb fst].
  unfold last_source, draws_of, np_random_rand.
  destruct (String.eqb _ "random"), (String.eqb _ "random"),
    (String.eqb _ "random"); cbn [fst]; f_equal; lia.
Qed.

End GeneratorErrors.

Section DensityOrder.
Context {F : Type} `{Scalar F}.

Hypothesis ltb_trans :
  forall a b c : F, ltb a b = true -> ltb b c = true -> ltb a c = true.

(** X12: for the same random source, a larger density never removes a
    connection: every entry that is true in the mask generated with density
    [d1] is true in the one generated with a density [d2 > d1], which so has
    at least as many true entries. *)
Theorem generate_mask_density_monotone (mask_type : string) (n m : nat)
  (d1 d2 : F) (keep : bool) (g : rng) (m1 m2 : mask) :
  ltb d1 d2 = true ->
  snd (_generate_mask mask_type n m d1 keep g) = Ok m1 ->
  snd (_generate_mask mask_type n m d2 keep g) = Ok m2 ->
  (forall i j, mask_get m1 i j = true -> mask_get m2 i j = true)
  /\ count_nonzero m1 <= count_nonzero m2.
Proof.
  intros Hd. rewrite !generate_mask_cases.
  destruct (known_mask_type mask_type); [|discriminate].
  destruct (keep && negb (n =? m)); [discriminate|].
  cbn [snd]. intros [= <-] [= <-].
  assert (Hf : forall v : F, ltb v d1 = true -> ltb v d2 = true)
    by (intros v Hv; exact (ltb_trans _ _ _ Hv Hd)).
  split.
  - intros i j. unfold mask_get, np_less. cbn [rows].
    now apply nth_map_map_implies.
  - unfold count_nonzero, np_less. cbn [rows].
    now apply count_rows_map_le.
Qed.

End DensityOrder.

Lemma generate_brain_state_errors_witness :
  snd (generate_brain_state 1 1 Examples.configuration_sparse Examples.rng0)
  = Raise (RuntimeError "Unknown mask_type: sparse").
Proof.
  apply (proj1 (proj2 (@generate_brain_state_errors Z Z_scalar 1%Z 1%Z
                         Examples.configuration_sparse Examples.rng0)));
    (reflexivity || discriminate).
Defined.

Lemma generate_brain_state_draws_witness :
  fst (generate_brain_state 1 1 Examples.configuration0
         (fun k => Z.of_nat k)) 0
  = 8%Z.
Proof.
  apply (@generate_brain_state_draws Z Z_scalar 1%Z 1%Z
           Examples.configuration0 (fun k => Z.of_nat k) 0);
    (reflexivity || discriminate).
Defined.

Lemma generate_mask_density_monotone_witness :
  (forall i j,
      mask_get {| ncols := 2; rows := [[false; false]] |} i j = true ->
      mask_get {| ncols := 2; rows := [[true; false]] |} i j = true)
  /\ count_nonzero {| ncols := 2; rows := [[false; false]] |}
     <= count_nonzero {| ncols := 2; rows := [[true; false]] |}.
Proof.
  apply (@generate_mask_density_monotone Z Z_scalar Z_ltb_trans "dense" 1 2
           0%Z 1%Z false (fun k => Z.of_nat k));
    reflexivity.
Defined.

(** ** What construction guarantees of the three matrices *)

Lemma length_indptr_from (o : nat) (rs : list (list bool)) :
  length (indptr_from o rs) = S (length rs).
Proof.
  revert o. induction rs as [|r rs IH]; intros o; simpl;
    [reflexivity | now rewrite IH].
Qed.

Lemma indptr_from_last (o : nat) (rs : list (list bool)) :
  nth (length rs) (indptr_from o rs) 0 = o + list_sum (map count_row rs).
Proof.
  revert o. induction rs as [|r rs IH]; intros o.
  - simpl. lia.
  - cbn [length indptr_from nth map]. rewrite IH.
    change (list_sum (count_row r :: map count_row rs))
      with (count_row r + list_sum (map count_row rs)).
    lia.
Qed.

Lemma indptr_from_increasing (rs : list (list bool)) :
  forall o i,
    i < length rs ->
    nth i (indptr_from o rs) 0 <= nth (S i) (indptr_from o rs) 0.
Proof.
  induction rs as [|r rs IH]; intros o i Hi; [simpl in Hi; lia|].
  destruct i as [|i].
  - cbn [indptr_from nth]. rewrite indptr_from_head. lia.
  - cbn [indptr_from]. cbn [nth]. apply IH. simpl in Hi. lia.
Qed.

Lemma length_indices_of_rows (rs : list (list bool)) :
  length (flat_map (nonzero_cols 0) rs) = list_sum (map count_row rs).
Proof.
  induction rs as [|r rs IH]; [reflexivity|].
  cbn [flat_map map]. rewrite length_app, length_nonzero_cols, IH.
  reflexivity.
Qed.

Lemma nonzero_cols_bound (r : list bool) :
  forall j, Forall (fun c => c < j + length r) (nonzero_cols j r).
Proof.
  induction r as [|b r IH]; intros j; [constructor|].
  cbn [nonzero_cols length]. specialize (IH (S j)).
  assert (Hrest : Forall (fun c => c < j + S (length r))
                    (nonzero_cols (S j) r)).
  { eapply Forall_impl; [|exact IH]. cbn. intros c Hc. lia. }
  destruct b; [constructor; [lia | exact Hrest] | exact Hrest].
Qed.

Section BuiltMatrices.
Context {F : Type} `{Scalar F}.

(** The matrix of a rectangular mask, filled with as many values as the
    mask has true entries, is a valid sparse matrix. *)
Lemma csr_wf_of_mask (m : mask) (d : list F) :
  wf_mask m -> length d = count_nonzero m ->
  csr_wf (with_data (csr_matrix m) d).
Proof.
  intros Hwf Hd. unfold csr_wf, with_data, csr_matrix.
  cbn [shape indptr indices data fst snd]. unfold nrows.
  repeat split.
  - apply length_indptr_from.
  - apply indptr_from_head.
  - rewrite indptr_from_last, Hd. reflexivity.
  - rewrite length_indices_of_rows, Hd. reflexivity.
  - intros i Hi. now apply indptr_from_increasing.
  - apply Forall_forall. intros c Hc. apply in_flat_map in Hc.
    destruct Hc as (r & Hr & Hc).
    unfold wf_mask in Hwf. rewrite Forall_forall in Hwf.
    pose proof (nonzero_cols_bound r 0) as Hb.
    rewrite Forall_forall in Hb. specialize (Hb c Hc).
    rewrite (Hwf r Hr) in Hb. exact Hb.
Qed.

(** X13: whatever the genome, the three matrices of a controller that the
    constructor returns for rectangular masks are valid sparse matrices: one
    row pointer more than rows, from zero up to the number of stored
    entries without decreasing, one column number per stored value, every
    column number below the column count, and as many stored values as the
    mask has true entries. *)
Theorem init_matrices_wellformed (g : list F) (cfg : configuration)
  (bs : brain_state) (vm wm tm : mask) (c : ContinuousTimeRNN) :
  get_masks_from_brain_state bs = Ok (vm, wm, tm) ->
  wf_mask vm -> wf_mask wm -> wf_mask tm ->
  __init__ g cfg bs = Ok c ->
  (csr_wf (V c) /\ length (data (V c)) = count_nonzero vm)
  /\ (csr_wf (W c) /\ length (data (W c)) = count_nonzero wm)
  /\ (csr_wf (T c) /\ length (data (T c)) = count_nonzero tm).
Proof.
  intros Hm Hwv Hww Hwt Hc. apply init_ok in Hc.
  destruct Hc as (vm' & wm' & tm' & vd & wd & td & Hm' & Hv & Hw & Ht & _ & ->).
  rewrite Hm in Hm'. injection Hm' as <- <- <-.
  apply setitem_length in Hv, Hw, Ht.
  rewrite length_data_csr_matrix in Hv, Hw, Ht.
  cbn [V W T data with_data].
  repeat split; try assumption; now apply csr_wf_of_mask.
Qed.

(** X14: the places of the weights depend on the brain state alone: two
    controllers built from the same brain state, whatever their genomes and
    configurations, have matrices of the same shapes, row pointers and
    column numbers. *)
Theorem init_structure_of_brain_state (g1 g2 : list F)
  (cfg1 cfg2 : configuration) (bs : brain_state)
  (c1 c2 : ContinuousTimeRNN) :
  __init__ g1 cfg1 bs = Ok c1 ->
  __init__ g2 cfg2 bs = Ok c2 ->
  (shape (V c1) = shape (V c2) /\ indptr (V c1) = indptr (V c2)
   /\ indices (V c1) = indices (V c2))
  /\ (shape (W c1) = shape (W c2) /\ indptr (W c1) = indptr (W c2)
      /\ indices (W c1) = indices (W c2))
  /\ (shape (T c1) = shape (T c2) /\ indptr (T c1) = indptr (T c2)
      /\ indices (T c1) = indices (T c2))
  /\ length (data (V c1)) = length (data (V c2))
  /\ length (data (W c1)) = length (data (W c2))
  /\ length (data (T c1)) = length (data (T c2)).
Proof.
  intros H1 H2. apply init_ok in H1, H2.
  destruct H1 as (vm & wm & tm & vd & wd & td & Hm & Hv & Hw & Ht & _ & ->).
  destruct H2
    as (vm' & wm' & tm' & vd' & wd' & td' & Hm' & Hv' & Hw' & Ht' & _ & ->).
  rewrite Hm in Hm'. injection Hm' as <- <- <-.
  apply setitem_length in Hv, Hw, Ht, Hv', Hw', Ht'.
  cbn [V W T data shape indptr indices with_data].
  repeat split; congruence.
Qed.

Lemma setitem_ok (dst src : list F) :
  length src = length dst \/ length src = 1 ->
  exists d, np_setitem_all dst src = Ok d /\ length d = length dst.
Proof.
  intros Hlen. unfold np_setitem_all.
  destruct (Nat.eqb_spec (length src) (length dst)) as [He|Hne].
  - now exists src.
  - destruct Hlen as [He| ->]; [contradiction|].
    cbn [Nat.eqb]. eexists. split; [reflexivity | apply repeat_length].
Qed.

(** X15: a genome that is too short is not always refused.  When the slice
    that runs short holds exactly one value and every later group is empty,
    construction succeeds (given [number_neurons >= 0]) and the three
    matrices together hold more weights than the genome has values: numpy
    has replicated the value over the group. *)
Theorem init_short_genome_broadcast (g : list F) (cfg : configuration)
  (bs : brain_state) (vm wm tm : mask) :
  get_masks_from_brain_state bs = Ok (vm, wm, tm) ->
  length g < count_nonzero vm + count_nonzero wm + count_nonzero tm ->
  short_by_broadcast (count_nonzero vm) (count_nonzero wm) (count_nonzero tm)
    (length g) = true ->
  (0 <= cfg_number_neurons cfg)%Z ->
  exists c,
    __init__ g cfg bs = Ok c
    /\ length (data (V c)) = count_nonzero vm
    /\ length (data (W c)) = count_nonzero wm
    /\ length (data (T c)) = count_nonzero tm
    /\ length g
       < length (data (V c)) + length (data (W c)) + length (data (T c)).
Proof.
  intros Hm Hlen Hshort Hn. unfold __init__. rewrite Hm. cbn [bind].
  unfold short_by_broadcast in Hshort.
  destruct (setitem_ok (data (csr_matrix vm))
              (py_slice g 0 (count_nonzero vm)))
    as (vd & -> & Hvd).
  { rewrite length_py_slice, length_data_csr_matrix.
    destruct (Nat.ltb_spec (length g) (count_nonzero vm));
      [|lia].
    rewrite !andb_true_iff, !Nat.eqb_eq in Hshort. lia. }
  cbn [bind].
  destruct (setitem_ok (data (csr_matrix wm))
              (py_slice g (count_nonzero vm)
                 (count_nonzero vm + count_nonzero wm)))
    as (wd & -> & Hwd).
  { rewrite length_py_slice, length_data_csr_matrix.
    destruct (Nat.ltb_spec (length g) (count_nonzero vm));
      [rewrite !andb_true_iff, !Nat.eqb_eq in Hshort; lia|].
    destruct (Nat.ltb_spec (length g) (count_nonzero vm + count_nonzero wm));
      [rewrite !andb_true_iff, !Nat.eqb_eq in Hshort; lia | lia]. }
  cbn [bind].
  destruct (setitem_ok (data (csr_matrix tm))
              (py_slice g (count_nonzero vm + count_nonzero wm)
                 (count_nonzero vm + count_nonzero wm + count_nonzero tm)))
    as (td & -> & Htd).
  { rewrite length_py_slice, length_data_csr_matrix.
    destruct (Nat.ltb_spec (length g) (count_nonzero vm));
      [rewrite !andb_true_iff, !Nat.eqb_eq in Hshort; lia|].
    destruct (Nat.ltb_spec (length g) (count_nonzero vm + count_nonzero wm));
      [rewrite !andb_true_iff, !Nat.eqb_eq in Hshort; lia|].
    rewrite Nat.eqb_eq in Hshort. lia. }
  cbn [bind]. cbn [number_neurons ContinuousTimeRNNCfg_init].
  rewrite (np_zeros_nonneg Hn). cbn [bind].
  rewrite length_data_csr_matrix in Hvd, Hwd, Htd.
  eexists. split; [reflexivity|]. cbn [V W T data with_data].
  repeat split; try assumption. lia.
Qed.

End BuiltMatrices.

Lemma init_matrices_wellformed_witness :
  (csr_wf (V Examples.brain0) /\ length (data (V Examples.brain0)) = 2)
  /\ (csr_wf (W Examples.brain0) /\ length (data (W Examples.brain0)) = 3)
  /\ (csr_wf (T Examples.brain0) /\ length (data (T Examples.brain0)) = 1).
Proof.
  apply (@init_matrices_wellformed Z Z_scalar
           [1; 2; 3; 4; 5; 6; 7; 8]%Z Examples.configuration0
           Examples.brain_state0 Examples.v_mask0 Examples.w_mask0
           Examples.t_mask0 Examples.brain0);
    try reflexivity; now apply wf_maskb_true.
Defined.

Lemma init_structure_of_brain_state_witness :
  (shape (V Examples.brain0) = shape (V Examples.brain_three)
   /\ indptr (V Examples.brain0) = indptr (V Examples.brain_three)
   /\ indices (V Examples.brain0) = indices (V Examples.brain_three))
  /\ (shape (W Examples.brain0) = shape (W Examples.brain_three)
      /\ indptr (W Examples.brain0) = indptr (W Examples.brain_three)
      /\ indices (W Examples.brain0) = indices (W Examples.brain_three))
  /\ (shape (T Examples.brain0) = shape (T Examples.brain_three)
      /\ indptr (T Examples.brain0) = indptr (T Examples.brain_three)
      /\ indices (T Examples.brain0) = indices (T Examples.brain_three))
  /\ length (data (V Examples.brain0)) = length (data (V Examples.brain_three))
  /\ length (data (W Examples.brain0)) = length (data (W Examples.brain_three))
  /\ length (data (T Examples.brain0)) = length (data (T Examples.brain_three)).
Proof.
  apply (@init_structure_of_brain_state Z Z_scalar
           [1; 2; 3; 4; 5; 6; 7; 8]%Z Examples.individual0
           Examples.configuration0 Examples.configuration_three
           Examples.brain_state0);
    reflexivity.
Defined.

(** One value for the two connections of [V], and nothing after them. *)
Lemma init_short_genome_broadcast_witness :
  exists c,
    __init__ [7]%Z Examples.configuration0 Examples.brain_state_v_only = Ok c
    /\ length (data (V c)) = 2
    /\ length (data (W c)) = 0
    /\ length (data (T c)) = 0
    /\ 1 < length (data (V c)) + length (data (W c)) + length (data (T c)).
Proof.
  apply (@init_short_genome_broadcast Z Z_scalar [7]%Z
           Examples.configuration0 Examples.brain_state_v_only
           Examples.v_mask0
           {| ncols := 2; rows := [[false; false]; [false; false]] |}
           {| ncols := 2; rows := [[false; false]] |});
    try reflexivity.
  - apply Nat.lt_succ_diag_r.
  - discriminate.
Defined.

(** ** Missing masks and the brain of the script *)

Section BrainStateErrors.
Context {F : Type} `{Scalar F}.

(** X16: a brain state that lacks one of the three masks is refused with
    the [KeyError] of the first missing key, in the order [v_mask],
    [w_mask], [t_mask], and every entry point that takes a brain state
    raises this same error before doing anything else: the size accounting,
    the constructor (whatever the genome and the configuration) and the
    save, which writes no file. *)
Theorem missing_mask_propagates (bs : brain_state) (e : exn) :
  get_masks_from_brain_state bs = Raise e ->
  (exists key,
      e = KeyError key /\ dict_lookup key bs = None
      /\ (key = "v_mask"
          \/ (key = "w_mask" /\ dict_lookup "v_mask" bs <> None)
          \/ (key = "t_mask" /\ dict_lookup "v_mask" bs <> None
              /\ dict_lookup "w_mask" bs <> None))%string)
  /\ get_free_parameter_usage bs = Raise e
  /\ get_individual_size bs = Raise e
  /\ (forall (g : list F) (cfg : configuration),
         __init__ g cfg bs = Raise e)
  /\ (forall (path : string) (fs : filesystem),
         save_brain_state path bs fs = Raise e).
Proof.
  intros Hm. split; [|split; [|split; [|split]]].
  - unfold get_masks_from_brain_state, dict_getitem in Hm.
    destruct (dict_lookup "v_mask" bs) as [vm|] eqn:Ev; cbn [bind] in Hm.
    2:{ injection Hm as <-. exists "v_mask"%string. auto. }
    destruct (dict_lookup "w_mask" bs) as [wm|] eqn:Ew; cbn [bind] in Hm.
    2:{ injection Hm as <-. exists "w_mask"%string.
        repeat split; auto. right. left. split; [reflexivity|].
        discriminate. }
    destruct (dict_lookup "t_mask" bs) as [tm|] eqn:Et; cbn [bind] in Hm.
    + discriminate.
    + injection Hm as <-. exists "t_mask"%string.
      repeat split; auto. right. right. repeat split; discriminate.
  - unfold get_free_parameter_usage. now rewrite Hm.
  - unfold get_individual_size, get_free_parameter_usage. now rewrite Hm.
  - intros g cfg. unfold __init__. now rewrite Hm.
  - intros path fs. unfold save_brain_state. now rewrite Hm.
Qed.

Lemma init_of_same_masks (g : list F) (cfg : configuration)
  (bs bs' : brain_state) :
  get_masks_from_brain_state bs = get_masks_from_brain_state bs' ->
  __init__ g cfg bs = __init__ g cfg bs'.
Proof. intros Hm. unfold __init__. now rewrite Hm. Qed.

(** X18: the brain that the script builds from a saved brain state is the
    one that the constructor builds from the brain state that was saved:
    loading the file that the save wrote and constructing gives exactly the
    outcome of constructing from the original brain state, with the same
    genome and configuration. *)
Theorem load_brain_after_save (path : string) (bs : brain_state)
  (fs fs' : filesystem) (vm wm tm : mask) (individual : list F)
  (cfg : configuration) :
  get_masks_from_brain_state bs = Ok (vm, wm, tm) ->
  wf_mask vm -> wf_mask wm -> wf_mask tm ->
  save_brain_state path bs fs = Ok fs' ->
  load_brain (savez_filename path) fs' individual cfg
  = __init__ individual cfg bs.
Proof.
  intros Hm Hv Hw Ht Hsave. unfold save_brain_state in Hsave.
  rewrite Hm in Hsave. cbn [bind] in Hsave. injection Hsave as <-.
  unfold load_brain.
  change [("v_mask"%string, vm); ("w_mask"%string, wm); ("t_mask"%string, tm)]
    with (get_brain_state_from_masks vm wm tm).
  rewrite (load_saved_file path fs Hv Hw Ht). cbn [bind].
  apply init_of_same_masks. now rewrite get_masks_of_masks.
Qed.

End BrainStateErrors.

Lemma missing_mask_propagates_witness :
  (exists key,
      KeyError "w_mask" = KeyError key
      /\ dict_lookup key [("v_mask"%string, Examples.v_mask0)] = None
      /\ (key = "v_mask"
          \/ (key = "w_mask"
              /\ dict_lookup "v_mask" [("v_mask"%string, Examples.v_mask0)]
                 <> None)
          \/ (key = "t_mask"
              /\ dict_lookup "v_mask" [("v_mask"%string, Examples.v_mask0)]
                 <> None
              /\ dict_lookup "w_mask" [("v_mask"%string, Examples.v_mask0)]
                 <> None))%string)
  /\ get_free_parameter_usage [("v_mask"%string, Examples.v_mask0)]
     = Raise (KeyError "w_mask")
  /\ get_individual_size [("v_mask"%string, Examples.v_mask0)]
     = Raise (KeyError "w_mask")
  /\ (forall (g : list Z) (cfg : configuration),
         __init__ g cfg [("v_mask"%string, Examples.v_mask0)]
         = Raise (KeyError "w_mask"))
  /\ (forall (path : string) (fs : filesystem),
         save_brain_state path [("v_mask"%string, Examples.v_mask0)] fs
         = Raise (KeyError "w_mask")).
Proof.
  apply (@missing_mask_propagates Z Z_scalar
           [("v_mask"%string, Examples.v_mask0)] (KeyError "w_mask")).
  reflexivity.
Defined.

Lemma load_brain_after_save_witness :
  load_brain (savez_filename "Brain_State.npz")
    (np_savez "Brain_State.npz" Examples.brain_state0 [])
    Examples.individual0 Examples.configuration0
  = __init__ Examples.individual0 Examples.configuration0
      Examples.brain_state0.
Proof.
  apply (@load_brain_after_save Z Z_scalar "Brain_State.npz"
           Examples.brain_state0 []
           (np_savez "Brain_State.npz" Examples.brain_state0 [])
           Examples.v_mask0 Examples.w_mask0 Examples.t_mask0);
    try reflexivity; now apply wf_maskb_true.
Defined.

(** ** The episodes of the validation script *)

Section Episodes.
Context {F : Type} `{Scalar F}.

Variable env : Type.
Variable CollectPointsEnv : Z -> env.
Variable env_reset : env -> env * list F.
Variable env_step : env -> list F -> env * (list F * F * bool).

Lemma reset_with_x_constructed (g : list F) (cfg : configuration)
  (bs : brain_state) (c0 : ContinuousTimeRNN) (xs : list F) :
  __init__ g cfg bs = Ok c0 ->
  reset (with_x c0 xs) = (c0, Ok tt).
Proof.
  intros Hc0. apply init_ok in Hc0.
  destruct Hc0 as (vm & wm & tm & vd & wd & td & _ & _ & _ & _ & Hn & ->).
  unfold reset, mbind, get_self, lift, set_x.
  cbn [config with_x number_neurons ContinuousTimeRNNCfg_init].
  rewrite (np_zeros_nonneg Hn). reflexivity.
Qed.

Lemma episode_loop_reachable (c0 : ContinuousTimeRNN) (fuel : nat) :
  forall (e : env) (ob : list F) (fitness : F) (c : ContinuousTimeRNN),
    reachable_from c0 c ->
    reachable_from c0
      (fst (episode_loop env_step fuel e ob fitness c)).
Proof.
  induction fuel as [|fuel IH]; intros e ob fitness c Hc; [exact Hc|].
  cbn [episode_loop]. unfold mbind.
  pose proof (@from_step _ _ c0 c ob Hc) as Hc1.
  destruct (step ob c) as [c1 [action|err]]; cbn [fst] in *; [|exact Hc1].
  destruct (env_step e action) as [e' [[ob' rew] done]].
  destruct done; [exact Hc1 | now apply IH].
Qed.

Lemma run_episode_reachable (c0 c : ContinuousTimeRNN) (fuel : nat)
  (env_seed : Z) :
  reachable_from c0 c ->
  reachable_from c0
    (fst (run_episode CollectPointsEnv env_reset env_step fuel env_seed c)).
Proof.
  intros Hc. unfold run_episode.
  destruct (env_reset (CollectPointsEnv env_seed)) as [e ob].
  unfold mbind. pose proof (@from_reset _ _ c0 c Hc) as Hc1.
  destruct (reset c) as [c1 [[]|err]]; cbn [fst] in *; [|exact Hc1].
  now apply episode_loop_reachable.
Qed.

Lemma run_episode_with_x (g : list F) (cfg : configuration)
  (bs : brain_state) (c0 : ContinuousTimeRNN) (xs : list F) (fuel : nat)
  (env_seed : Z) :
  __init__ g cfg bs = Ok c0 ->
  run_episode CollectPointsEnv env_reset env_step fuel env_seed (with_x c0 xs)
  = (let '(e, ob) := env_reset (CollectPointsEnv env_seed) in
     episode_loop env_step fuel e ob zero c0).
Proof.
  intros Hc0. unfold run_episode.
  destruct (env_reset (CollectPointsEnv env_seed)) as [e ob].
  unfold mbind. now rewrite (@reset_with_x_constructed g cfg bs c0 xs Hc0).
Qed.

(** X19: every episode of the script starts from the controller as the
    constructor built it.  From whatever controller earlier steps, resets
    and episodes have left, an episode on a seed has exactly the outcome,
    reward, error or running out of the step bound, and leaves exactly the
    controller that the same episode has on the freshly built one. *)
Theorem run_episode_from_fresh (g : list F) (cfg : configuration)
  (bs : brain_state) (c0 c : ContinuousTimeRNN) (fuel : nat) (env_seed : Z) :
  __init__ g cfg bs = Ok c0 ->
  reachable_from c0 c ->
  run_episode CollectPointsEnv env_reset env_step fuel env_seed c
  = run_episode CollectPointsEnv env_reset env_step fuel env_seed c0
  /\ reachable_from c0
       (fst (run_episode CollectPointsEnv env_reset env_step fuel env_seed c)).
Proof.
  intros Hc0 Hc. split; [|now apply run_episode_reachable].
  destruct (@reachable_from_frame _ _ c0 c Hc) as [xs ->].
  rewrite (@run_episode_with_x g cfg bs c0 xs fuel env_seed Hc0).
  pose proof (@run_episode_with_x g cfg bs c0 (x c0) fuel env_seed Hc0)
    as Hfresh.
  rewrite with_x_same in Hfresh. now rewrite Hfresh.
Qed.

(** X20: the rewards that the validation loop reports, started on whatever
    controller earlier use has left, are those of the episodes run one by
    one on the freshly built controller, one per seed and in the order of
    the seeds, and the total is the start value with these rewards added
    in that order. *)
Theorem validation_runs_rewards (g : list F) (cfg : configuration)
  (bs : brain_state) (c0 : ContinuousTimeRNN) (fuel : nat) (seeds : list Z) :
  __init__ g cfg bs = Ok c0 ->
  forall (c : ContinuousTimeRNN) (fitness_total : F)
         (printed : list (Z * F)) (total : F),
    reachable_from c0 c ->
    snd (validation_runs CollectPointsEnv env_reset env_step fuel seeds
           fitness_total c)
    = Ok (Some (printed, total)) ->
    map fst printed = seeds
    /\ Forall (fun p =>
                 snd (run_episode CollectPointsEnv env_reset env_step fuel
                        (fst p) c0)
                 = Ok (Some (snd p)))
              printed
    /\ total = fold_left add (map snd printed) fitness_total.
Proof.
  intros Hc0.
  induction seeds as [|s seeds IH]; intros c fitness_total printed total Hc.
  - cbn. intros [= <- <-]. repeat split. constructor.
  - cbn [validation_runs]. unfold mbind at 1.
    pose proof (@run_episode_reachable c0 c fuel s Hc) as Hreach.
    destruct (@reachable_from_frame _ _ c0 c Hc) as [xs ->].
    pose proof (@run_episode_with_x g cfg bs c0 (x c0) fuel s Hc0)
      as Hfresh.
    rewrite with_x_same in Hfresh.
    rewrite (@run_episode_with_x g cfg bs c0 xs fuel s Hc0) in *.
    rewrite <- Hfresh in *. clear Hfresh.
    destruct (run_episode CollectPointsEnv env_reset env_step fuel s c0)
      as [c1 [[f|]|err]] eqn:Hep; cbn [fst snd] in *;
      try discriminate.
    unfold mbind.
    specialize (IH c1 (add fitness_total f)).
    destruct (validation_runs CollectPointsEnv env_reset env_step fuel seeds
                (add fitness_total f) c1)
      as [c2 [[[printed' total']|]|err]]; cbn [fst snd] in *;
      try discriminate.
    intros [= <- <-].
    destruct (IH printed' total' Hreach eq_refl) as (Hseeds & Hall & Htotal).
    cbn [map fst snd fold_left]. repeat split.
    + now rewrite Hseeds.
    + constructor; [cbn [fst snd]; now rewrite Hep | exact Hall].
    + exact Htotal.
Qed.

End Episodes.

(** An episode of the toy environment after a step of the example. *)
Lemma run_episode_from_fresh_witness :
  run_episode Examples.toy_env Examples.toy_env_reset Examples.toy_env_step
    10 0 (fst (step [1]%Z Examples.brain0))
  = run_episode Examples.toy_env Examples.toy_env_reset
      Examples.toy_env_step 10 0 Examples.brain0
  /\ reachable_from Examples.brain0
       (fst (run_episode Examples.toy_env Examples.toy_env_reset
               Examples.toy_env_step 10 0
               (fst (step [1]%Z Examples.brain0)))).
Proof.
  apply (@run_episode_from_fresh Z Z_scalar Z Examples.toy_env
           Examples.toy_env_reset Examples.toy_env_step
           Examples.individual0 Examples.configuration0
           Examples.brain_state0 Examples.brain0
           (fst (step [1]%Z Examples.brain0)) 10 0%Z).
  - reflexivity.
  - apply from_step. apply from_start.
Defined.

(** The validation of two seeds of the toy environment. *)
Lemma validation_runs_rewards_witness :
  map fst [(0, 2); (1, 2)]%Z = [0; 1]%Z
  /\ Forall (fun p =>
               snd (run_episode Examples.toy_env Examples.toy_env_reset
                      Examples.toy_env_step 10 (fst p) Examples.brain0)
               = Ok (Some (snd p)))
            [(0, 2); (1, 2)]%Z
  /\ 4%Z = fold_left Z.add (map snd [(0, 2); (1, 2)]%Z) 0%Z.
Proof.
  apply (@validation_runs_rewards Z Z_scalar Z Examples.toy_env
           Examples.toy_env_reset Examples.toy_env_step
           Examples.individual0 Examples.configuration0
           Examples.brain_state0 Examples.brain0 10 [0; 1]%Z eq_refl
           (fst (step [1]%Z Examples.brain0)) 0%Z).
  - apply from_step. apply from_start.
  - reflexivity.
Defined.

(** ** The failures of the mask generator, and the default connectivity *)

Lemma count_row_repeat_true (m : nat) : count_row (repeat true m) = m.
Proof. induction m as [|m IH]; simpl; [reflexivity | now rewrite IH]. Qed.

Lemma count_nonzero_all_true (n m : nat) :
  count_nonzero (constant_mask true n m) = n * m.
Proof.
  unfold count_nonzero, constant_mask. cbn [rows].
  induction n as [|n IH]; [reflexivity|].
  cbn [repeat map].
  change (count_row (repeat true m)
          + list_sum (map count_row (repeat (repeat true m) n))
          = S n * m).
  rewrite IH, count_row_repeat_true. reflexivity.
Qed.

Section GeneratorEdges.
Context {F : Type} `{Scalar F}.

(** X22: the two failures of [_generate_mask].  A type that is neither
    ["random"] nor ["dense"] raises a [RuntimeError] that names it and
    leaves the random source untouched.  A request to keep the main
    diagonal of a matrix that is not square raises an [AssertionError],
    and by then a mask of type ["random"] has already used up [n * m]
    random values, a mask of type ["dense"] none. *)
Theorem generate_mask_failures (mask_type : string) (n m : nat) (d : F)
  (keep : bool) (g : rng) :
  (known_mask_type mask_type = false ->
   _generate_mask mask_type n m d keep g
   = (g, Raise (RuntimeError ("Unknown mask_type: " ++ mask_type))))
  /\ (known_mask_type mask_type = true -> keep = true -> n <> m ->
      snd (_generate_mask mask_type n m d keep g) = Raise AssertionError
      /\ forall k,
           fst (_generate_mask mask_type n m d keep g) k
           = g ((if String.eqb mask_type "random" then n * m else 0) + k)).
Proof.
  rewrite generate_mask_cases. split.
  - now intros ->.
  - intros -> -> Hnm. apply Nat.eqb_neq in Hnm. rewrite Hnm.
    cbn [andb negb fst snd]. split; [reflexivity|].
    intros k. unfold last_source, np_random_rand.
    destruct (String.eqb mask_type "random"); reflexivity.
Qed.

(** X23: with the default mask settings, type ["dense"] and density 1.0,
    or any known types with density 1.0, and a random source whose values
    are below 1, [generate_brain_state] returns the three all-true masks, so
    that every neuron is connected to every input, neuron and output and
    the individual size is neurons x (inputs + neurons + outputs). *)
Theorem generate_brain_state_full (number_inputs number_outputs : Z)
  (cfg : configuration) (g : rng) :
  (forall k, ltb (g k) one = true) ->
  (0 <= cfg_number_neurons cfg)%Z ->
  (0 <= number_inputs)%Z -> (0 <= number_outputs)%Z ->
  known_mask_type (v_mask (ContinuousTimeRNNCfg_init cfg)) = true ->
  known_mask_type (w_mask (ContinuousTimeRNNCfg_init cfg)) = true ->
  known_mask_type (t_mask (ContinuousTimeRNNCfg_init cfg)) = true ->
  v_mask_density (ContinuousTimeRNNCfg_init cfg) = one ->
  w_mask_density (ContinuousTimeRNNCfg_init cfg) = one ->
  t_mask_density (ContinuousTimeRNNCfg_init cfg) = one ->
  snd (generate_brain_state number_inputs number_outputs cfg g)
  = Ok (get_brain_state_from_masks
          (constant_mask true (Z.to_nat (cfg_number_neurons cfg))
             (Z.to_nat number_inputs))
          (constant_mask true (Z.to_nat (cfg_number_neurons cfg))
             (Z.to_nat (cfg_number_neurons cfg)))
          (constant_mask true (Z.to_nat number_outputs)
             (Z.to_nat (cfg_number_neurons cfg))))
  /\ (bs <- snd (generate_brain_state number_inputs number_outputs cfg g) ;;
      get_individual_size bs)
     = Ok (Z.to_nat (cfg_number_neurons cfg)
           * (Z.to_nat number_inputs + Z.to_nat (cfg_number_neurons cfg)
              + Z.to_nat number_outputs)).
Proof.
  intros Hg Hn Hi Ho Hv Hw Ht Hdv Hdw Hdt.
  assert (Hdraw : forall n m (g' : rng),
             (forall k, ltb (g' k) one = true) ->
             np_less m (snd (np_random_rand n m g')) one
             = constant_mask true n m)
    by (intros n m g' Hg'; now apply np_less_constant).
  assert (Hsrc : forall t n m k, ltb (last_source t n m g k) one = true).
  { intros t n m k. unfold last_source, np_random_rand.
    destruct (String.eqb t "random"); cbn [fst]; apply Hg. }
  unfold generate_brain_state. rewrite Hdv, Hdw, Hdt.
  cbn [number_neurons ContinuousTimeRNNCfg_init] in *.
  rewrite generate_mask_int_nonneg by assumption.
  rewrite generate_mask_cases, Hv. cbn [andb].
  rewrite Hdraw by apply Hsrc.
  rewrite generate_mask_int_nonneg by assumption.
  rewrite generate_mask_cases, Hw, Nat.eqb_refl. cbn [andb negb].
  rewrite Hdraw.
  2:{ intros k. unfold last_source, np_random_rand.
      destruct (String.eqb _ "random"), (String.eqb _ "random");
        cbn [fst]; apply Hg. }
  rewrite generate_mask_int_nonneg by assumption.
  rewrite generate_mask_cases, Ht. cbn [andb].
  rewrite Hdraw.
  2:{ intros k. unfold last_source, np_random_rand.
      destruct (String.eqb _ "random"), (String.eqb _ "random"),
        (String.eqb _ "random"); cbn [fst]; apply Hg. }
  cbn [snd bind]. split; [reflexivity|].
  unfold get_individual_size, get_free_parameter_usage.
  rewrite get_masks_of_masks. cbn [bind dict_values map snd fold_left].
  rewrite !count_nonzero_all_true. f_equal. lia.
Qed.

End GeneratorEdges.

Lemma generate_mask_failures_witness :
  snd (_generate_mask "random" 1 2 0%Z true (fun k => Z.of_nat k))
  = Raise AssertionError
  /\ forall k,
       fst (_generate_mask "random" 1 2 0%Z true (fun k => Z.of_nat k)) k
       = Z.of_nat (1 * 2 + k).
Proof.
  apply (proj2 (@generate_mask_failures Z Z_scalar "random" 1 2 0%Z true
                  (fun k => Z.of_nat k)));
    (reflexivity || discriminate).
Defined.

(** The default configuration of the example: six connections in all. *)
Lemma generate_brain_state_full_witness :
  snd (generate_brain_state 1 1 Examples.configuration0 Examples.rng0)
  = Ok (get_brain_state_from_masks (constant_mask true 2 1)
          (constant_mask true 2 2) (constant_mask true 1 2))
  /\ (bs <- snd (generate_brain_state 1 1 Examples.configuration0
                   Examples.rng0) ;;
      get_individual_size bs)
     = Ok (2 * (1 + 2 + 1)).
Proof.
  apply (@generate_brain_state_full Z Z_scalar 1%Z 1%Z
           Examples.configuration0 Examples.rng0);
    try reflexivity; try discriminate.
Defined.
